(** * Six cities: the offer controller, the user entity and the client
      [fetchOffer] action, embedded and verified.

    Sources embedded here:
    - [src/modules/offer/offer.controller.ts], in its two revisions (the
      early one without middlewares, the later one with middleware chains);
    - the [UserEntity] class (typegoose model of a user);
    - the client-side async actions: [fetchOffer], and the other actions
      of the same file as programs over the requests they send.

    JavaScript values are modelled by [Value]; a handler is a program of the
    free monad [Prog] over the operations of the injected services, so that
    "the handler invokes operation X" is a statement about the trace of a run
    against an arbitrary service implementation. *)

From Stdlib Require Import ZArith String Ascii List Bool Lia DecimalString.
From stdpp Require Import base option list gmap strings infinite fin_maps.

Set Warnings "-register-all".

Local Open Scope string_scope.
Local Open Scope Z_scope.

(** ** JavaScript values *)

Module JS.

(** A plain JavaScript value, as handlers and services exchange them at run
    time (TypeScript's types are erased).  Objects keep insertion order. *)
Inductive Value : Type :=
| VUndefined
| VNull
| VBool (b : bool)
| VNum (n : Z)
| VStr (s : string)
| VArr (items : list Value)
| VObj (fields : list (string * Value)).

Definition Obj : Type := list (string * Value).

(** Truthiness, as used by [if (!offer)]. *)
Definition truthy (v : Value) : bool :=
  match v with
  | VUndefined | VNull => false
  | VBool b => b
  | VNum n => negb (n =? 0)
  | VStr s => negb (String.eqb s "")
  | VArr _ | VObj _ => true
  end.

Definition nullish (v : Value) : bool :=
  match v with
  | VUndefined | VNull => true
  | _ => false
  end.

(** [o[k]] on the fields of an object: the first binding of [k], or
    [undefined]. *)
Fixpoint lookup_field (k : string) (o : Obj) : Value :=
  match o with
  | [] => VUndefined
  | (k', v) :: o' => if String.eqb k k' then v else lookup_field k o'
  end.

Fixpoint has_field (k : string) (o : Obj) : bool :=
  match o with
  | [] => false
  | (k', _) :: o' => String.eqb k k' || has_field k o'
  end.

Definition remove_field (k : string) (o : Obj) : Obj :=
  List.filter (fun kv => negb (String.eqb k (fst kv))) o.

(** [o[k] = v]: overwrite in place when the key exists, append otherwise. *)
Fixpoint set_field (k : string) (v : Value) (o : Obj) : Obj :=
  match o with
  | [] => [(k, v)]
  | (k', v') :: o' =>
      if String.eqb k k' then (k, v) :: o' else (k', v') :: set_field k v o'
  end.

(** [{...a, ...b}]: the fields of [b] are assigned over those of [a]. *)
Definition spread (a b : Obj) : Obj :=
  fold_left (fun acc kv => set_field (fst kv) (snd kv) acc) b a.

(** [v?.k]: optional chaining. *)
Definition opt_chain (v : Value) (k : string) : Value :=
  match v with
  | VObj o => lookup_field k o
  | _ => VUndefined
  end.

(** A route or query parameter read from a dictionary of strings. *)
Fixpoint dict_get (k : string) (d : list (string * string)) : option string :=
  match d with
  | [] => None
  | (k', v) :: d' => if String.eqb k k' then Some v else dict_get k d'
  end.

Definition of_opt_string (o : option string) : Value :=
  match o with
  | Some s => VStr s
  | None => VUndefined
  end.

(** [`${x}`] for a value that is a string or [undefined]. *)
Definition interpolate (o : option string) : string :=
  match o with
  | Some s => s
  | None => "undefined"
  end.

End JS.
Export JS.

(** ** HTTP vocabulary *)

(** The constants of the [http-status-codes] package that the sources use. *)
Module StatusCodes.
Definition OK : Z := 200.
Definition CREATED : Z := 201.
Definition NO_CONTENT : Z := 204.
Definition BAD_REQUEST : Z := 400.
Definition UNAUTHORIZED : Z := 401.
Definition NOT_FOUND : Z := 404.
Definition NOT_IMPLEMENTED : Z := 501.
End StatusCodes.

Inductive HttpMethod : Type := Get | Post | Delete | Patch | Put.

Definition HttpMethod_eqb (a b : HttpMethod) : bool :=
  match a, b with
  | Get, Get | Post, Post | Delete, Delete | Patch, Patch | Put, Put => true
  | _, _ => false
  end.

(** [new HttpError(statusCode, message, detail)]: the typed HTTP error. *)
Record HttpError : Type := mkHttpError {
  httpStatusCode : Z;
  message : string;
  detail : string
}.

(** What a handler or middleware can throw: a typed HTTP error, or the
    [TypeError] JavaScript raises on a property read of [null]/[undefined]. *)
Inductive Exn : Type :=
| HttpErr (e : HttpError)
| TypeError (what : string).

(** The part of an Express request the controller reads. *)
Record Request : Type := mkRequest {
  params : list (string * string);
  query : list (string * string);
  body : Obj;
  user : Value;
  file : Value;
  files : Value
}.

Definition with_params (ps : list (string * string)) (r : Request) : Request :=
  {| params := ps; query := query r; body := body r; user := user r;
     file := file r; files := files r |}.

Definition with_file (f : Value) (r : Request) : Request :=
  {| params := params r; query := query r; body := body r; user := user r;
     file := f; files := files r |}.

Definition with_files (fs : Value) (r : Request) : Request :=
  {| params := params r; query := query r; body := body r; user := user r;
     file := file r; files := fs |}.

(** ** Programs over the injected services *)

(** An operation awaited by a handler or a middleware: a method of
    [OfferServiceInterface] or [CommentServiceInterface], or the storage step
    of an upload middleware.  Arguments are the run-time values passed;
    [OfferFindFavorite] carries its argument list because the two revisions
    call it with different arities. *)
Inductive Op : Type :=
| OfferFind (limit : Value)
| OfferFindById (offerId : Value)
| OfferCreate (dto : Value)
| OfferUpdateById (offerId : Value) (dto : Value)
| OfferDeleteById (offerId : Value)
| OfferExists (documentId : Value)
| OfferFindPremium (city : Value) (limit : Value)
| OfferFindFavorite (args : list Value)
| CommentFindByOfferId (offerId : Value)
| CommentDeleteByOfferId (offerId : Value)
| StoreSingle (uploadDirectory fieldName : string)
| StoreArray (uploadDirectory fieldName : string).

(** The free monad of handler bodies: return, throw, await an operation, or
    send the response. *)
Inductive Prog (A : Type) : Type :=
| Ret (a : A)
| Throw (e : Exn)
| Await (o : Op) (k : Value -> Prog A)
| Send (statusCode : Z) (data : Value) (k : Prog A).

Arguments Ret {A} a.
Arguments Throw {A} e.
Arguments Await {A} o k.
Arguments Send {A} statusCode data k.

Fixpoint bind {A B : Type} (p : Prog A) (f : A -> Prog B) : Prog B :=
  match p with
  | Ret a => f a
  | Throw e => Throw e
  | Await o k => Await o (fun v => bind (k v) f)
  | Send s d k => Send s d (bind k f)
  end.

#[global] Instance Prog_ret : MRet Prog := fun A a => Ret a.
#[global] Instance Prog_bind : MBind Prog := fun A B f p => bind p f.

Definition await (o : Op) : Prog Value := Await o Ret.
Definition throw {A : Type} (e : HttpError) : Prog A := Throw (HttpErr e).

(** [v.k]: a property read, which throws on [null] and [undefined]. *)
Definition get_prop (v : Value) (k : string) : Prog Value :=
  match v with
  | VObj o => Ret (lookup_field k o)
  | VUndefined | VNull => Throw (TypeError ("Cannot read properties of " ++ k))
  | _ => Ret VUndefined
  end.

(** *** Running a program against a service implementation *)

(** An implementation of the service interfaces: some state, and an answer to
    every operation. *)
Record Services : Type := mkServices {
  state : Type;
  answer : Op -> state -> Value * state
}.

Inductive Event : Type :=
| Called (o : Op)
| Sent (statusCode : Z) (data : Value).

Inductive Outcome (A : Type) : Type :=
| Done (a : A)
| Failed (e : Exn).
Arguments Done {A} a.
Arguments Failed {A} e.

Record Run (S A : Type) : Type := mkRun {
  outcome : Outcome A;
  trace : list Event;
  final : S
}.
Arguments mkRun {S A} outcome trace final.
Arguments outcome {S A} r.
Arguments trace {S A} r.
Arguments final {S A} r.

Fixpoint run {A : Type} (I : Services) (p : Prog A) (st : state I)
  : Run (state I) A :=
  match p with
  | Ret a => mkRun (Done a) [] st
  | Throw e => mkRun (Failed e) [] st
  | Await o k =>
      let '(v, st') := answer I o st in
      let r := run I (k v) st' in
      mkRun (outcome r) (Called o :: trace r) (final r)
  | Send s d k =>
      let r := run I k st in
      mkRun (outcome r) (Sent s d :: trace r) (final r)
  end.

(** The operations invoked during a run, in order. *)
Definition calls (t : list Event) : list Op :=
  omap (fun e => match e with Called o => Some o | Sent _ _ => None end) t.

(** The responses sent during a run, in order. *)
Definition responses (t : list Event) : list (Z * Value) :=
  omap (fun e => match e with Sent s d => Some (s, d) | Called _ => None end) t.

(** ** What the controller takes from the rest of the application *)

(** The response classes handed to [fillDTO]. *)
Inductive ResponseClass : Type :=
| OfferResponse
| OffersResponse
| CommentResponse
| UploadImageResponse
| UploadImagesResponse.

(** The request DTO classes handed to [ValidateDtoMiddleware]. *)
Inductive DtoClass : Type :=
| CreateOfferDto
| UpdateOfferDto.

(** Declarations the controller imports and whose text is not part of the
    embedded sources: the fields each response class exposes, the object-id
    and DTO validity predicates, and the configured upload directory. *)
Class Environment : Type := {
  exposedFields : ResponseClass -> list string;
  isValidObjectId : string -> bool;
  isValidDto : DtoClass -> Obj -> bool;
  UPLOAD_DIRECTORY : string
}.

(** Modelled from the spec: the fields of an object that a response class
    exposes, in the order the class declares them; every other field is
    discarded (section 4.4). *)
Definition pick (exposed : list string) (o : Obj) : Obj :=
  omap (fun k => if has_field k o then Some (k, lookup_field k o) else None)
       exposed.

(** Modelled from the spec: the declarative mapper of section 4.4, which
    converts an entity, or an array of entities, into a plain response object
    that contains only the exposed fields. *)
Definition plainToInstance (exposed : list string) (v : Value) : Value :=
  match v with
  | VObj o => VObj (pick exposed o)
  | VArr items =>
      VArr (List.map (fun item =>
                        match item with
                        | VObj o => VObj (pick exposed o)
                        | _ => item
                        end) items)
  | _ => v
  end.

(** Modelled from the spec: [fillDTO] of [utils/common], the mapper applied
    with the fields of the response class. *)
Definition fillDTO `{Environment} (cls : ResponseClass) (v : Value) : Value :=
  plainToInstance (exposedFields cls) v.

(** The helpers of the [Controller] base class, which is not part of the
    embedded sources. *)
Module Controller.

(** Modelled from the spec: [send] of the [Controller] base class sends a
    fixed-format response with the given status and data. *)
Definition send (statusCode : Z) (data : Value) : Prog unit :=
  Send statusCode data (Ret tt).

(** Modelled from the spec: [ok] of the [Controller] base class, a 200
    response. *)
Definition ok (data : Value) : Prog unit := send StatusCodes.OK data.

(** Modelled from the spec: [created] of the [Controller] base class, the
    201 response of a POST (section 8). *)
Definition created (data : Value) : Prog unit := send StatusCodes.CREATED data.

(** Modelled from the spec: [noContent] of the [Controller] base class, a
    204 response. *)
Definition noContent (data : Value) : Prog unit :=
  send StatusCodes.NO_CONTENT data.

End Controller.
Import Controller.

(** ** Middlewares *)

(** The middleware objects a route lists.  [DocumentExistsMiddleware] is
    given the service whose [exists] it calls; here its [exists] operation. *)
Inductive Middleware : Type :=
| PrivateRouteMiddleware
| ValidateObjectIdMiddleware (param : string)
| ValidateDtoMiddleware (dto : DtoClass)
| DocumentExistsMiddleware (serviceExists : Value -> Op)
                           (entityName paramName : string)
| UploadFileMiddleware (uploadDirectory fieldName : string)
| UploadFilesMiddleware (uploadDirectory fieldName : string).

Definition is_document_exists (m : Middleware) : bool :=
  match m with DocumentExistsMiddleware _ _ _ => true | _ => false end.

Section Middlewares.
Context `{Environment}.

(** Modelled from the spec: [execute] of each middleware class of
    [common/middlewares], after section 4.1: the private-route gate rejects a
    request without a user with 401, the object-id validator rejects a
    malformed identifier with 400, the DTO validator rejects an invalid body
    with 400, the existence check looks the document up and rejects with 404,
    the upload middlewares store the files and attach them to the request.
    A middleware that does not reject passes the request on. *)
Definition execute (m : Middleware) (req : Request) : Prog Request :=
  match m with
  | PrivateRouteMiddleware =>
      if nullish (user req)
      then throw (mkHttpError StatusCodes.UNAUTHORIZED "Unauthorized"
                              "PrivateRouteMiddleware")
      else Ret req
  | ValidateObjectIdMiddleware param =>
      match dict_get param (params req) with
      | Some objectId =>
          if isValidObjectId objectId then Ret req
          else throw (mkHttpError StatusCodes.BAD_REQUEST
                        (objectId ++ " is invalid ObjectID")
                        "ValidateObjectIdMiddleware")
      | None =>
          throw (mkHttpError StatusCodes.BAD_REQUEST
                   "undefined is invalid ObjectID" "ValidateObjectIdMiddleware")
      end
  | ValidateDtoMiddleware dto =>
      if isValidDto dto (body req) then Ret req
      else throw (mkHttpError StatusCodes.BAD_REQUEST "Validation error"
                              "ValidateDtoMiddleware")
  | DocumentExistsMiddleware serviceExists entityName paramName =>
      let documentId := dict_get paramName (params req) in
      found ← await (serviceExists (of_opt_string documentId));
      if truthy found then Ret req
      else throw (mkHttpError StatusCodes.NOT_FOUND
                    (entityName ++ " with " ++ interpolate documentId
                       ++ " not found.")
                    "DocumentExistsMiddleware")
  | UploadFileMiddleware uploadDirectory fieldName =>
      stored ← await (StoreSingle uploadDirectory fieldName);
      Ret (with_file stored req)
  | UploadFilesMiddleware uploadDirectory fieldName =>
      stored ← await (StoreArray uploadDirectory fieldName);
      Ret (with_files stored req)
  end.

(** Modelled from the spec: the chain runs in array order and any middleware
    may end it early by throwing; otherwise control reaches the handler. *)
Fixpoint chain (ms : list Middleware) (req : Request) : Prog Request :=
  match ms with
  | [] => Ret req
  | m :: ms' => req' ← execute m req; chain ms' req'
  end.

End Middlewares.

(** ** Routes and dispatch *)

Section Routing.
Context {H : Type}.

(** The argument of [addRoute]; an omitted [middlewares] is the empty list. *)
Record Route : Type := mkRoute {
  path : string;
  method : HttpMethod;
  handler : H;
  middlewares : list Middleware
}.

(** The segments of a path: ["/a/b"] is [["a"; "b"]], ["/"] is [[]].  Empty
    segments are skipped, which is what the router does for one trailing
    slash; paths with other empty segments are outside what is proved here
    (the theorems take their variable segments non-empty and slash-free). *)
Fixpoint segments_from (s : string) (current : string) : list string :=
  match s with
  | EmptyString => if String.eqb current "" then [] else [current]
  | String c rest =>
      if Ascii.eqb c "/"%char
      then (if String.eqb current "" then segments_from rest ""
            else current :: segments_from rest "")
      else segments_from rest (current ++ String c "")
  end.

Definition segments (s : string) : list string := segments_from s "".

(** A path segment: non-empty and without a slash. *)
Fixpoint no_slash (s : string) : bool :=
  match s with
  | EmptyString => true
  | String c rest => negb (Ascii.eqb c "/"%char) && no_slash rest
  end.

Definition is_segment (s : string) : bool :=
  negb (String.eqb s "") && no_slash s.

(** A character of a path without a percent sign: percent-decoding leaves
    such a segment as it is. *)
Fixpoint no_percent (s : string) : bool :=
  match s with
  | EmptyString => true
  | String c rest => negb (Ascii.eqb c "%"%char) && no_percent rest
  end.

(** The lower-case form of an ASCII letter, and of a string. *)
Definition to_lower (c : ascii) : ascii :=
  if (("A" <=? c) && (c <=? "Z"))%char
  then ascii_of_nat (nat_of_ascii c + 32)
  else c.

Fixpoint lowercase (s : string) : string :=
  match s with
  | EmptyString => EmptyString
  | String c rest => String (to_lower c) (lowercase rest)
  end.

(** Modelled from the spec: a route pattern against a request path, as the
    router of the web framework matches them: a segment [:name] binds any
    segment of the path, another segment matches itself whatever the case of
    its letters (the router is not case sensitive).  A parameter is bound to
    the segment as written: this is the value the router hands on for a
    segment without percent escapes ([no_percent]). *)
Fixpoint match_segments (pattern actual : list string)
  : option (list (string * string)) :=
  match pattern, actual with
  | [], [] => Some []
  | p :: pattern', a :: actual' =>
      match p with
      | String ":"%char name =>
          option_map (cons (name, a)) (match_segments pattern' actual')
      | _ =>
          if String.eqb (lowercase p) (lowercase a)
          then match_segments pattern' actual'
          else None
      end
  | _, _ => None
  end.

(** Modelled from the spec: a route matches a request of its method whose
    path fits its pattern. *)
Definition match_route (r : Route) (m : HttpMethod) (actual : list string)
  : option (list (string * string)) :=
  if HttpMethod_eqb (method r) m
  then match_segments (segments (path r)) actual
  else None.

(** Modelled from the spec: the first matching route in registration
    order, with the parameters its pattern binds. *)
Fixpoint find_route (routes : list Route) (m : HttpMethod)
    (actual : list string) : option (Route * list (string * string)) :=
  match routes with
  | [] => None
  | r :: routes' =>
      match match_route r m actual with
      | Some ps => Some (r, ps)
      | None => find_route routes' m actual
      end
  end.

(** Modelled from the spec: the router dispatches a request to the first
    route, in registration order, whose method and path match. *)
Definition dispatch (routes : list Route) (m : HttpMethod) (url : string)
  : option (Route * list (string * string)) :=
  find_route routes m (segments url).

Context `{Environment}.

(** Modelled from the spec: one request through a controller (section 2):
    dispatch, the route's middleware chain in declared order, then the
    handler.  [None] when no route of the controller matches. *)
Definition serve (routes : list Route) (methods : H -> Request -> Prog unit)
    (m : HttpMethod) (url : string) (req : Request) : option (Prog unit) :=
  match dispatch routes m url with
  | None => None
  | Some (r, ps) =>
      Some (req' ← chain (middlewares r) (with_params ps req);
            methods (handler r) req')
  end.

End Routing.
Arguments Route H : clear implicits.

(** ** [OfferController], early revision (no middlewares) *)

Module OfferControllerEarly.

Inductive Handler : Type :=
| this_show | this_index | this_create | this_delete | this_update | this_getComments | this_findPremium
| this_findFavorite.

(** The [addRoute] calls of the constructor, in the order they are made. *)
Definition routes : list (Route Handler) :=
  [ mkRoute "/:offerId" Get this_show [];
    mkRoute "/" Get this_index [];
    mkRoute "/" Post this_create [];
    mkRoute "/:offerId" Delete this_delete [];
    mkRoute "/:offerId" Patch this_update [];
    mkRoute "/:offerId/comments" Get this_getComments [];
    mkRoute "/premium/:city" Get this_findPremium [];
    mkRoute "/favorite" Get this_findFavorite [] ].

Section Handlers.
Context `{Environment}.

Definition show (req : Request) : Prog unit :=
  let offerId := dict_get "offerId" (params req) in
  offer ← await (OfferFindById (of_opt_string offerId));
  if negb (truthy offer)
  then throw (mkHttpError StatusCodes.NOT_IMPLEMENTED "Not implemented"
                          "OfferContorller")
  else ok (fillDTO OfferResponse offer).

Definition index (req : Request) : Prog unit :=
  offers ← await (OfferFind (of_opt_string (dict_get "limit" (params req))));
  ok (fillDTO OfferResponse offers).

Definition create (req : Request) : Prog unit :=
  result ← await (OfferCreate (VObj (body req)));
  resultId ← get_prop result "id";
  offer ← await (OfferFindById resultId);
  created (fillDTO OfferResponse offer).

Definition delete (req : Request) : Prog unit :=
  let offerId := dict_get "offerId" (params req) in
  offer ← await (OfferDeleteById (of_opt_string offerId));
  if negb (truthy offer)
  then throw (mkHttpError StatusCodes.NOT_FOUND
                ("Offer with id " ++ interpolate offerId ++ " not found.")
                "OfferContorller")
  else
    await (CommentDeleteByOfferId (of_opt_string offerId));;
    noContent offer.

Definition update (req : Request) : Prog unit :=
  let offerId := dict_get "offerId" (params req) in
  updatedOffer ← await (OfferUpdateById (of_opt_string offerId)
                                        (VObj (body req)));
  if negb (truthy updatedOffer)
  then throw (mkHttpError StatusCodes.NOT_FOUND
                ("Offer with id " ++ interpolate offerId ++ " not found.")
                "OfferController")
  else ok (fillDTO OfferResponse updatedOffer).

Definition getComments (req : Request) : Prog unit :=
  let offerId := dict_get "offerId" (params req) in
  found ← await (OfferExists (of_opt_string offerId));
  if negb (truthy found)
  then throw (mkHttpError StatusCodes.NOT_FOUND
                ("Offer with id " ++ interpolate offerId ++ " not found.")
                "OfferController")
  else
    comments ← await (CommentFindByOfferId (of_opt_string offerId));
    ok (fillDTO CommentResponse comments).

Definition findPremium (req : Request) : Prog unit :=
  offers ← await (OfferFindPremium
                    (of_opt_string (dict_get "city" (params req)))
                    (of_opt_string (dict_get "limit" (query req))));
  let offersResponse := fillDTO OfferResponse offers in
  send StatusCodes.OK offersResponse.

Definition findFavorite (req : Request) : Prog unit :=
  offers ← await (OfferFindFavorite
                    [of_opt_string (dict_get "limit" (params req))]);
  let offersResponse := fillDTO OfferResponse offers in
  send StatusCodes.OK offersResponse.

(** The method each route's [handler] refers to. *)
Definition methods (h : Handler) : Request -> Prog unit :=
  match h with
  | this_show => show
  | this_index => index
  | this_create => create
  | this_delete => delete
  | this_update => update
  | this_getComments => getComments
  | this_findPremium => findPremium
  | this_findFavorite => findFavorite
  end.

Definition handle (m : HttpMethod) (url : string) (req : Request)
  : option (Prog unit) :=
  serve routes methods m url req.

End Handlers.
End OfferControllerEarly.

(** ** [OfferController], later revision (middleware chains) *)

Module OfferController.

Inductive Handler : Type :=
| this_show | this_index | this_create | this_delete | this_update | this_getComments | this_findPremium
| this_findFavorite | this_uploadImage | this_uploadImages.

Section Handlers.
Context `{Environment}.

(** The [addRoute] calls of the constructor, in the order they are made. *)
Definition routes : list (Route Handler) :=
  [ mkRoute "/" Get this_index [];
    mkRoute "/" Post this_create
      [ PrivateRouteMiddleware;
        ValidateDtoMiddleware CreateOfferDto ];
    mkRoute "/favorite" Get this_findFavorite [];
    mkRoute "/:offerId" Get this_show
      [ ValidateObjectIdMiddleware "offerId";
        DocumentExistsMiddleware OfferExists "Offer" "offerId" ];
    mkRoute "/:offerId" Delete this_delete
      [ PrivateRouteMiddleware;
        ValidateObjectIdMiddleware "offerId";
        DocumentExistsMiddleware OfferExists "Offer" "offerId" ];
    mkRoute "/:offerId" Patch this_update
      [ PrivateRouteMiddleware;
        ValidateObjectIdMiddleware "offerId";
        ValidateDtoMiddleware UpdateOfferDto;
        DocumentExistsMiddleware OfferExists "Offer" "offerId" ];
    mkRoute "/:offerId/comments" Get this_getComments
      [ ValidateObjectIdMiddleware "offerId";
        DocumentExistsMiddleware OfferExists "Offer" "offerId" ];
    mkRoute "/:offerId/previewImage" Post this_uploadImage
      [ PrivateRouteMiddleware;
        ValidateObjectIdMiddleware "offerId";
        UploadFileMiddleware UPLOAD_DIRECTORY "image" ];
    mkRoute "/:offerId/offerImages" Post this_uploadImages
      [ PrivateRouteMiddleware;
        ValidateObjectIdMiddleware "offerId";
        UploadFilesMiddleware UPLOAD_DIRECTORY "image" ];
    mkRoute "/premium/:city" Get this_findPremium [] ].

Definition show (req : Request) : Prog unit :=
  let offerId := dict_get "offerId" (params req) in
  offer ← await (OfferFindById (of_opt_string offerId));
  ok (fillDTO OfferResponse offer).

Definition index (req : Request) : Prog unit :=
  offers ← await (OfferFind (of_opt_string (dict_get "limit" (query req))));
  ok (fillDTO OffersResponse offers).

Definition create (req : Request) : Prog unit :=
  userId ← get_prop (user req) "id";
  result ← await (OfferCreate (VObj (spread (body req) [("userId", userId)])));
  resultId ← get_prop result "id";
  offer ← await (OfferFindById resultId);
  created (fillDTO OfferResponse offer).

Definition delete (req : Request) : Prog unit :=
  let offerId := dict_get "offerId" (params req) in
  offer ← await (OfferDeleteById (of_opt_string offerId));
  await (CommentDeleteByOfferId (of_opt_string offerId));;
  noContent offer.

Definition update (req : Request) : Prog unit :=
  updatedOffer ← await (OfferUpdateById
                          (of_opt_string (dict_get "offerId" (params req)))
                          (VObj (body req)));
  ok (fillDTO OfferResponse updatedOffer).

Definition getComments (req : Request) : Prog unit :=
  comments ← await (CommentFindByOfferId
                      (of_opt_string (dict_get "offerId" (params req))));
  ok (fillDTO CommentResponse comments).

Definition findPremium (req : Request) : Prog unit :=
  offers ← await (OfferFindPremium
                    (of_opt_string (dict_get "city" (params req)))
                    (of_opt_string (dict_get "limit" (query req))));
  let offersResponse := fillDTO OffersResponse offers in
  send StatusCodes.OK offersResponse.

Definition findFavorite (_req : Request) : Prog unit :=
  offers ← await (OfferFindFavorite []);
  let offersResponse := fillDTO OffersResponse offers in
  send StatusCodes.OK offersResponse.

Definition uploadImage (req : Request) : Prog unit :=
  let offerId := dict_get "offerId" (params req) in
  let updateDto := VObj [("previewImage", opt_chain (file req) "filename")] in
  await (OfferUpdateById (of_opt_string offerId) updateDto);;
  created (fillDTO UploadImageResponse (VObj [("updateDto", updateDto)])).

(** [fileArray.map((file) => file.filename)]. *)
Fixpoint filenames (fileArray : list Value) : Prog (list Value) :=
  match fileArray with
  | [] => Ret []
  | f :: rest =>
      name ← get_prop f "filename";
      names ← filenames rest;
      Ret (name :: names)
  end.

Definition uploadImages (req : Request) : Prog unit :=
  let offerId := dict_get "offerId" (params req) in
  match files req with
  | VArr fileArray =>
      fileNames ← filenames fileArray;
      let updateDto := VObj [("offerImages", VArr fileNames)] in
      await (OfferUpdateById (of_opt_string offerId) updateDto);;
      created (fillDTO UploadImagesResponse updateDto)
  | _ => Throw (TypeError "fileArray.map is not a function")
  end.

(** The method each route's [handler] refers to. *)
Definition methods (h : Handler) : Request -> Prog unit :=
  match h with
  | this_show => show
  | this_index => index
  | this_create => create
  | this_delete => delete
  | this_update => update
  | this_getComments => getComments
  | this_findPremium => findPremium
  | this_findFavorite => findFavorite
  | this_uploadImage => uploadImage
  | this_uploadImages => uploadImages
  end.

Definition handle (m : HttpMethod) (url : string) (req : Request)
  : option (Prog unit) :=
  serve routes methods m url req.

End Handlers.
End OfferController.

(** ** An in-memory implementation of the services *)

Module MemoryStore.

(** Modelled from the spec: the offer and comment services of sections 3 and
    4.3, whose classes are not part of the embedded sources, over an
    in-memory collection of offer documents keyed by id and a list of comment
    documents that reference their offer by [offerId].  [pendingFile] and
    [pendingFiles] are what the upload middlewares find in the multipart body
    of the request being served. *)
Record Store : Type := mkStore {
  offers : gmap string Obj;
  comments : list Value;
  pendingFile : Value;
  pendingFiles : Value
}.

Definition with_offers (os : gmap string Obj) (st : Store) : Store :=
  {| offers := os; comments := comments st;
     pendingFile := pendingFile st; pendingFiles := pendingFiles st |}.

Definition with_comments (cs : list Value) (st : Store) : Store :=
  {| offers := offers st; comments := cs;
     pendingFile := pendingFile st; pendingFiles := pendingFiles st |}.

Definition find_offer (offerId : Value) (st : Store) : option Obj :=
  match offerId with
  | VStr s => offers st !! s
  | _ => None
  end.

Definition fields_of (v : Value) : Obj :=
  match v with
  | VObj o => o
  | _ => []
  end.

(** Whether a comment document references the offer [offerId]. *)
Definition refers (offerId : Value) (comment : Value) : bool :=
  match offerId, opt_chain comment "offerId" with
  | VStr a, VStr b => String.eqb a b
  | _, _ => false
  end.

Definition limited (limit : Value) (items : list Value) : list Value :=
  match limit with
  | VNum n => take (Z.to_nat n) items
  | _ => items
  end.

Definition all_offers (st : Store) : list Value :=
  List.map (fun kv => VObj (snd kv)) (map_to_list (offers st)).

Definition flagged (flag : string) (offer : Value) : bool :=
  truthy (opt_chain offer flag).

Definition in_city (city : Value) (offer : Value) : bool :=
  match city, opt_chain offer "city" with
  | VStr a, VStr b => String.eqb a b
  | _, _ => false
  end.

(** Modelled from the spec: the operations of section 4.3.  The queries
    leave the store as it is; [create] stores the document under a fresh id;
    [updateById] and [deleteById] answer [null] for an id that is not stored;
    [deleteByOfferId] removes every comment that references the offer and
    [findByOfferId] lists those that do. *)
Definition answer (o : Op) (st : Store) : Value * Store :=
  match o with
  | OfferFind limit => (VArr (limited limit (all_offers st)), st)
  | OfferFindById offerId =>
      (match find_offer offerId st with
       | Some doc => VObj doc
       | None => VNull
       end, st)
  | OfferCreate dto =>
      let newId := fresh (dom (offers st)) in
      let doc := set_field "id" (VStr newId) (fields_of dto) in
      (VObj doc, with_offers (<[newId := doc]> (offers st)) st)
  | OfferUpdateById offerId dto =>
      match offerId, find_offer offerId st with
      | VStr s, Some doc =>
          let doc' := spread doc (remove_field "id" (fields_of dto)) in
          (VObj doc', with_offers (<[s := doc']> (offers st)) st)
      | _, _ => (VNull, st)
      end
  | OfferDeleteById offerId =>
      match offerId, find_offer offerId st with
      | VStr s, Some doc =>
          (VObj doc, with_offers (base.delete s (offers st)) st)
      | _, _ => (VNull, st)
      end
  | OfferExists documentId =>
      (VBool (bool_decide (is_Some (find_offer documentId st))), st)
  | OfferFindPremium city limit =>
      (VArr (limited limit
               (List.filter (fun o => in_city city o && flagged "isPremium" o)
                            (all_offers st))), st)
  | OfferFindFavorite _ =>
      (VArr (List.filter (flagged "isFavorite") (all_offers st)), st)
  | CommentFindByOfferId offerId =>
      (VArr (List.filter (refers offerId) (comments st)), st)
  | CommentDeleteByOfferId offerId =>
      (VNum (Z.of_nat (length (List.filter (refers offerId) (comments st)))),
       with_comments
         (List.filter (fun c => negb (refers offerId c)) (comments st)) st)
  | StoreSingle _ _ => (pendingFile st, st)
  | StoreArray _ _ => (pendingFiles st, st)
  end.

Definition services : Services := mkServices Store answer.

End MemoryStore.

(** ** The user entity *)

Module UserEntity.

(** The fields of the [User] type that the constructor reads. *)
Record User : Type := mkUser {
  data_name : string;
  data_email : string;
  data_avatarPath : string;
  data_userType : string
}.

(** An instance of the class: its four public properties and the private
    [password], which holds nothing until it is assigned. *)
Record UserEntity : Type := mkUserEntity {
  name : string;
  email : string;
  avatarPath : string;
  password : option string;
  userType : string
}.

Section WithHash.
(** [createSHA256] of [utils/common]: an opaque one-way function. *)
Variable createSHA256 : string -> string -> string.

Definition constructor (data : User) : UserEntity :=
  {| name := data_name data;
     email := data_email data;
     avatarPath := data_avatarPath data;
     password := None;
     userType := data_userType data |}.

Definition setPassword (password salt : string) (this : UserEntity)
  : UserEntity :=
  {| name := name this;
     email := email this;
     avatarPath := avatarPath this;
     password := Some (createSHA256 password salt);
     userType := userType this |}.

Definition getPassword (this : UserEntity) : option string := password this.

(** The operations the class offers after construction. *)
Inductive Operation : Type :=
| SetPassword (password salt : string)
| GetPassword.

Definition perform (this : UserEntity) (op : Operation) : UserEntity :=
  match op with
  | SetPassword password salt => setPassword password salt this
  | GetPassword => this
  end.

Definition perform_all (ops : list Operation) (this : UserEntity)
  : UserEntity :=
  fold_left perform ops this.

(** The arguments of the last [setPassword] among [ops], if any. *)
Fixpoint last_credentials (ops : list Operation) (seen : option (string * string))
  : option (string * string) :=
  match ops with
  | [] => seen
  | SetPassword password salt :: ops' =>
      last_credentials ops' (Some (password, salt))
  | GetPassword :: ops' => last_credentials ops' seen
  end.

End WithHash.

(** The properties of the class with their access modifiers, as declared. *)
Inductive Access : Type := Public | Private.

Definition properties : list (string * Access) :=
  [ ("name", Public); ("email", Public); ("avatarPath", Public);
    ("password", Private); ("userType", Public) ].

(** Modelled from the spec: the stored document of a user as a plain
    object, its id and every property of the entity. *)
Definition toObject (id : string) (this : UserEntity) : Obj :=
  [ ("id", VStr id);
    ("name", VStr (name this));
    ("email", VStr (email this));
    ("avatarPath", VStr (avatarPath this));
    ("password", of_opt_string (password this));
    ("userType", VStr (userType this)) ].

(** Modelled from the spec: the user response class, which is not part of
    the embedded sources.  After section 4.4 it exposes the identifier and the
    public fields of the entity, and nothing else. *)
Definition UserResponse : list string :=
  "id" :: omap (fun p => match snd p with
                         | Public => Some (fst p)
                         | Private => None
                         end) properties.

(** Modelled from the spec: the User response mapping,
    [fillDTO(UserResponse, user)]. *)
Definition userResponse (id : string) (this : UserEntity) : Value :=
  plainToInstance UserResponse (VObj (toObject id this)).

End UserEntity.

(** ** The client action [fetchOffer] *)

Module Client.

(** [error.response] of an Axios error: only its status is read. *)
Record AxiosResponse : Type := mkAxiosResponse { status : Z }.

(** A thrown value seen as an [AxiosError]: [response] is absent when the
    server did not answer, or when the value is not an Axios error at all. *)
Record AxiosError : Type := mkAxiosError {
  errorName : string;
  response : option AxiosResponse
}.

(** Modelled from the spec: [HttpCode.NotFound] of the client's [const]
    module, the 404 status. *)
Module HttpCode.
Definition NotFound : Z := 404.
End HttpCode.

Section Actions.
Variables OfferDto Offer : Type.
(** [adaptOfferToClient]; it runs inside the [try] block, so what it may
    throw is caught like a failed request. *)
Variable adaptOfferToClient : OfferDto -> AxiosError + Offer.
(** [ApiRoute.Offers] and [AppRoute.NotFound] of the client's [const]. *)
Variable ApiRoute_Offers : string.
Variable AppRoute_NotFound : string.

(** [api.get<OfferDto>(url)]: rejected with an error or resolved with the
    response data. *)
Record AxiosInstance : Type := mkAxiosInstance {
  get : string -> AxiosError + OfferDto
}.

(** The entries pushed on the browser history, most recent first. *)
Definition History : Type := list string.

Definition push (route : string) (history : History) : History :=
  route :: history.

(** How the promise of the payload creator settles. *)
Inductive Settled : Type :=
| Fulfilled (offer : Offer)
| Rejected (error : AxiosError).

(** The [catch] block. *)
Definition on_error (error : AxiosError) (history : History)
  : Settled * History :=
  let axiosError := error in
  let history' :=
    match response axiosError with
    | Some r =>
        if status r =? HttpCode.NotFound
        then push AppRoute_NotFound history
        else history
    | None => history
    end in
  (Rejected error, history').

Definition fetchOffer (api : AxiosInstance) (history : History) (id : string)
  : Settled * History :=
  match get api (ApiRoute_Offers ++ "/" ++ id) with
  | inr data =>
      match adaptOfferToClient data with
      | inr offer => (Fulfilled offer, history)
      | inl error => on_error error history
      end
  | inl error => on_error error history
  end.

End Actions.
End Client.

(** ** Sample data for the worked examples *)

Module Sample.

Definition is_hex (c : ascii) : bool :=
  (("0" <=? c) && (c <=? "9") || ("a" <=? c) && (c <=? "f"))%char.

Fixpoint all_hex (s : string) : bool :=
  match s with
  | EmptyString => true
  | String c rest => is_hex c && all_hex rest
  end.

(** An environment in which an object id is 24 lower-case hex digits and a
    DTO is valid when it has a title. *)
Definition environment : Environment :=
  {| exposedFields := fun cls =>
       match cls with
       | OfferResponse | OffersResponse =>
           ["id"; "title"; "city"; "price"; "previewImage"]
       | CommentResponse => ["id"; "text"; "rating"]
       | UploadImageResponse => ["previewImage"]
       | UploadImagesResponse => ["offerImages"]
       end;
     isValidObjectId := fun s => (String.length s =? 24)%nat && all_hex s;
     isValidDto := fun _ o => has_field "title" o;
     UPLOAD_DIRECTORY := "upload" |}.

Definition offerId : string := "5f8d0d55b54764421b7156c5".
Definition otherId : string := "5f8d0d55b54764421b7156c6".

Definition offer : Obj :=
  [("id", VStr offerId); ("title", VStr "Nice flat"); ("city", VStr "Paris");
   ("price", VNum 120); ("hostNote", VStr "internal")].

Definition comment (id offer_id text : string) : Value :=
  VObj [("id", VStr id); ("offerId", VStr offer_id); ("text", VStr text);
        ("rating", VNum 4)].

(** One offer with two comments, and a comment of another offer. *)
Definition store : MemoryStore.Store :=
  {| MemoryStore.offers := {[ offerId := offer ]};
     MemoryStore.comments :=
       [comment "c1" offerId "Great"; comment "c2" otherId "Fine";
        comment "c3" offerId "Good"];
     MemoryStore.pendingFile := VUndefined;
     MemoryStore.pendingFiles := VUndefined |}.

(** A store without any offer. *)
Definition emptyStore : MemoryStore.Store :=
  {| MemoryStore.offers := ∅;
     MemoryStore.comments := [];
     MemoryStore.pendingFile := VUndefined;
     MemoryStore.pendingFiles := VUndefined |}.

Definition anonymous : Request :=
  {| params := []; query := [];
     body := [("title", VStr "Loft")];
     user := VUndefined; file := VUndefined; files := VUndefined |}.

Definition authenticated : Request :=
  {| params := []; query := [];
     body := [("title", VStr "Loft")];
     user := VObj [("id", VStr "u1"); ("email", VStr "a@b.c")];
     file := VUndefined; files := VUndefined |}.

End Sample.

(** ** Properties of handler bodies *)

(** A handler body that answers properly: on every path it either throws
    before sending anything, or sends one response as its last step. *)
Fixpoint responds_once (p : Prog unit) : Prop :=
  match p with
  | Ret _ => False
  | Throw _ => True
  | Await _ k => forall v, responds_once (k v)
  | Send _ _ k => k = Ret tt
  end.


(** The operations that change what the services store. *)
Definition mutates (o : Op) : bool :=
  match o with
  | OfferCreate _ | OfferUpdateById _ _ | OfferDeleteById _
  | CommentDeleteByOfferId _ | StoreSingle _ _ | StoreArray _ _ => true
  | _ => false
  end.

(** The offer an operation is addressed to, for those that take an id. *)
Definition op_offer_id (o : Op) : option Value :=
  match o with
  | OfferFindById v | OfferUpdateById v _ | OfferDeleteById v | OfferExists v
  | CommentFindByOfferId v | CommentDeleteByOfferId v => Some v
  | _ => None
  end.

(** Every operation a program may await, on any path, satisfies [P]. *)
Fixpoint all_calls {A : Type} (P : Op -> Prop) (p : Prog A) : Prop :=
  match p with
  | Ret _ | Throw _ => True
  | Await o k => P o /\ forall v, all_calls P (k v)
  | Send _ _ k => all_calls P k
  end.

(** ** The client actions *)

Module ClientActions.

(** [String(v)], as a template literal renders a value. *)
Fixpoint to_string (v : Value) : string :=
  match v with
  | VUndefined => "undefined"
  | VNull => "null"
  | VBool true => "true"
  | VBool false => "false"
  | VNum n => NilZero.string_of_int (Z.to_int n)
  | VStr s => s
  | VArr items =>
      String.concat ","
        (List.map (fun item => match item with
                               | VUndefined | VNull => ""
                               | _ => to_string item
                               end) items)
  | VObj _ => "[object Object]"
  end.

(** The second argument of [api.post] and [api.patch]: nothing, a value, or
    a [FormData] with its appended entries. *)
Inductive Body : Type :=
| NoBody
| Data (v : Value)
| FormData (entries : list (string * Value)).

(** A call on the Axios instance; [headers] are those of the request config,
    empty when no config is passed. *)
Inductive ApiCall : Type :=
| ApiGet (url : string)
| ApiPost (url : string) (data : Body) (headers : list (string * string))
| ApiPatch (url : string) (data : Body)
| ApiDelete (url : string).

(** The body of a payload creator: it resolves, rejects, awaits a request
    (whose promise may be rejected, which [try] blocks observe), pushes on
    the history, or saves or drops the token. *)
Inductive Thunk (A : Type) : Type :=
| Resolve (a : A)
| Reject (error : Client.AxiosError)
| Request (c : ApiCall) (k : Client.AxiosError + Value -> Thunk A)
| HistoryPush (route : string) (k : Thunk A)
| TokenSave (token : Value) (k : Thunk A)
| TokenDrop (k : Thunk A).

Arguments Resolve {A} a.
Arguments Reject {A} error.
Arguments Request {A} c k.
Arguments HistoryPush {A} route k.
Arguments TokenSave {A} token k.
Arguments TokenDrop {A} k.

Fixpoint thunk_bind {A B : Type} (p : Thunk A) (f : A -> Thunk B) : Thunk B :=
  match p with
  | Resolve a => f a
  | Reject e => Reject e
  | Request c k => Request c (fun r => thunk_bind (k r) f)
  | HistoryPush route k => HistoryPush route (thunk_bind k f)
  | TokenSave token k => TokenSave token (thunk_bind k f)
  | TokenDrop k => TokenDrop (thunk_bind k f)
  end.

#[global] Instance Thunk_ret : MRet Thunk := fun A a => Resolve a.
#[global] Instance Thunk_bind : MBind Thunk := fun A B f p => thunk_bind p f.

(** [try { p } catch (error) { h(error) }]. *)
Fixpoint try_catch {A : Type} (p : Thunk A)
    (h : Client.AxiosError -> Thunk A) : Thunk A :=
  match p with
  | Resolve a => Resolve a
  | Reject e => h e
  | Request c k => Request c (fun r => try_catch (k r) h)
  | HistoryPush route k => HistoryPush route (try_catch k h)
  | TokenSave token k => TokenSave token (try_catch k h)
  | TokenDrop k => TokenDrop (try_catch k h)
  end.

(** [const { data } = await api.<method>(...)]. *)
Definition request (c : ApiCall) : Thunk Value :=
  Request c (fun r => match r with
                      | inl error => Reject error
                      | inr data => Resolve data
                      end).

Definition push (route : string) : Thunk unit := HistoryPush route (Resolve tt).
Definition save (token : Value) : Thunk unit := TokenSave token (Resolve tt).
Definition drop : Thunk unit := TokenDrop (Resolve tt).

(** The [TypeError] of a property read on [null] or [undefined], seen as an
    [AxiosError]: it has no [response]. *)
Definition typeError : Client.AxiosError := Client.mkAxiosError "TypeError" None.

(** [v.k]. *)
Definition read (v : Value) (k : string) : Thunk Value :=
  match v with
  | VObj o => Resolve (lookup_field k o)
  | VUndefined | VNull => Reject typeError
  | _ => Resolve VUndefined
  end.

(** A call of an adapter, which may throw. *)
Definition adapt (f : Value -> Client.AxiosError + Value) (v : Value)
  : Thunk Value :=
  match f v with
  | inl error => Reject error
  | inr adapted => Resolve adapted
  end.

(** [axiosError.response?.status === code]. *)
Definition has_status (error : Client.AxiosError) (code : Z) : bool :=
  match Client.response error with
  | Some r => Client.status r =? code
  | None => false
  end.

(** The constants of the client's [const] module that the actions use. *)
Class Constants : Type := {
  ApiRoute_Offers : string;
  ApiRoute_Favorite : string;
  ApiRoute_Premium : string;
  ApiRoute_Login : string;
  ApiRoute_Register : string;
  ApiRoute_Users : string;
  ApiRoute_Comments : string;
  AppRoute_Root : string;
  AppRoute_Login : string;
  AppRoute_Property : string;
  HttpCode_NoAuth : Z
}.

(** The adapters of [utils/adapters]; each may throw. *)
Class Adapters : Type := {
  adaptOffersToClient : Value -> Client.AxiosError + Value;
  adaptCommentToClient : Value -> Client.AxiosError + Value;
  adaptOfferToClient : Value -> Client.AxiosError + Value;
  adaptCommentsToClient : Value -> Client.AxiosError + Value;
  adaptUserToClient : Value -> Client.AxiosError + Value;
  adaptCreateCommentToServer : Value -> Client.AxiosError + Value;
  adaptEditOfferToServer : Value -> Client.AxiosError + Value;
  adaptCreateOfferToServer : Value -> Client.AxiosError + Value;
  adaptSignupToServer : Value -> Client.AxiosError + Value;
  adaptPreviewImageToServer : Value -> Client.AxiosError + Value;
  adaptImagesToServer : Value -> Client.AxiosError + Value
}.

Definition multipart_boundary : list (string * string) :=
  [("Content-Type",
    "multipart/form-data boundary=----WebKitFormBoundary7MA4YWxkTrZu0gW")].

Section Actions.
Context `{Constants} `{Adapters}.

Definition fetchOffers : Thunk Value :=
  data ← request (ApiGet ApiRoute_Offers);
  adapt adaptOffersToClient data.

Definition fetchFavoriteOffers : Thunk Value :=
  data ← request (ApiGet ApiRoute_Favorite);
  adapt adaptOffersToClient data.

Definition postOffer (newOffer : Obj) : Thunk Value :=
  payload ← adapt adaptCreateOfferToServer (VObj newOffer);
  data ← request (ApiPost ApiRoute_Offers (Data payload) []);
  id ← read data "id";
  push (AppRoute_Property ++ "/" ++ to_string id);;
  (if truthy data then
     id ← read data "id";
     let postImageApiRoute :=
       ApiRoute_Offers ++ "/" ++ to_string id ++ "/previewImage" in
     preview ← adapt adaptPreviewImageToServer
                 (lookup_field "previewImage" newOffer);
     request (ApiPost postImageApiRoute (Data preview) multipart_boundary);;
     id ← read data "id";
     let postImagesApiRoute :=
       ApiRoute_Offers ++ "/" ++ to_string id ++ "/offerImages" in
     images ← adapt adaptImagesToServer (lookup_field "images" newOffer);
     request (ApiPost postImagesApiRoute (Data images) multipart_boundary);;
     Resolve tt
   else Resolve tt);;
  adapt adaptOfferToClient data.

Definition editOffer (offer : Obj) : Thunk Value :=
  let postImageApiRoute :=
    ApiRoute_Offers ++ "/" ++ to_string (lookup_field "id" offer)
      ++ "/previewImage" in
  preview ← adapt adaptPreviewImageToServer (lookup_field "previewImage" offer);
  request (ApiPost postImageApiRoute (Data preview) multipart_boundary);;
  let postImagesApiRoute :=
    ApiRoute_Offers ++ "/" ++ to_string (lookup_field "id" offer)
      ++ "/offerImages" in
  images ← adapt adaptImagesToServer (lookup_field "images" offer);
  request (ApiPost postImagesApiRoute (Data images) multipart_boundary);;
  payload ← adapt adaptEditOfferToServer (VObj offer);
  data ← request (ApiPatch
                    (ApiRoute_Offers ++ "/"
                       ++ to_string (lookup_field "id" offer))
                    (Data payload));
  id ← read data "id";
  push (AppRoute_Property ++ "/" ++ to_string id);;
  adapt adaptOfferToClient data.

Definition deleteOffer (id : Value) : Thunk Value :=
  request (ApiDelete (ApiRoute_Offers ++ "/" ++ to_string id));;
  push AppRoute_Root;;
  Resolve VUndefined.

Definition fetchPremiumOffers (cityName : Value) : Thunk Value :=
  data ← request (ApiGet (ApiRoute_Premium ++ "/" ++ to_string cityName));
  adapt adaptOffersToClient data.

Definition fetchComments (id : Value) : Thunk Value :=
  data ← request (ApiGet (ApiRoute_Offers ++ "/" ++ to_string id
                            ++ "/comments"));
  adapt adaptCommentsToClient data.

Definition fetchUserStatus : Thunk Value :=
  try_catch
    (data ← request (ApiGet ApiRoute_Login);
     adapt adaptUserToClient data)
    (fun error =>
       (if has_status error HttpCode_NoAuth then drop else Resolve tt);;
       Reject error).

Definition loginUser (email password : Value) : Thunk Value :=
  data ← request (ApiPost ApiRoute_Login
                    (Data (VObj [("email", email); ("password", password)]))
                    []);
  token ← read data "token";
  save token;;
  push AppRoute_Root;;
  Resolve email.

Definition logoutUser : Thunk Value :=
  drop;;
  Resolve VUndefined.

Definition registerUser (email password name avatar type : Value)
  : Thunk Value :=
  payload ← adapt adaptSignupToServer
              (VObj [("email", email); ("password", password);
                     ("name", name); ("type", type)]);
  data ← request (ApiPost ApiRoute_Register (Data payload) []);
  (if truthy avatar then
     let payload := FormData [("avatar", avatar)] in
     id ← read data "id";
     request (ApiPost (ApiRoute_Users ++ "/" ++ to_string id ++ "/avatar")
                payload [("Content-Type", "multipart/form-data")]);;
     Resolve tt
   else Resolve tt);;
  push AppRoute_Login;;
  Resolve VUndefined.

Definition postComment (id comment rating : Value) : Thunk Value :=
  payload ← adapt adaptCreateCommentToServer
              (VObj [("id", id); ("comment", comment); ("rating", rating)]);
  data ← request (ApiPost ApiRoute_Comments (Data payload) []);
  adapt adaptCommentToClient data.

Definition postFavorite (id : Value) : Thunk Value :=
  try_catch
    (data ← request (ApiPost (ApiRoute_Favorite ++ "/" ++ to_string id)
                       NoBody []);
     adapt adaptOfferToClient data)
    (fun error =>
       (if has_status error HttpCode_NoAuth then push AppRoute_Login
        else Resolve tt);;
       Reject error).

Definition deleteFavorite (id : Value) : Thunk Value :=
  try_catch
    (data ← request (ApiDelete (ApiRoute_Favorite ++ "/" ++ to_string id));
     adapt adaptOfferToClient data)
    (fun error =>
       (if has_status error HttpCode_NoAuth then push AppRoute_Login
        else Resolve tt);;
       Reject error).

End Actions.

(** *** Running an action against a server *)

(** The server behind the Axios instance: some state, and for every call a
    rejection or the data of the response. *)
Record Server : Type := mkServer {
  server_state : Type;
  respond : ApiCall -> server_state -> (Client.AxiosError + Value) * server_state
}.

Inductive Effect : Type :=
| Requested (c : ApiCall)
| Pushed (route : string)
| TokenSaved (token : Value)
| TokenDropped.

Inductive Settled : Type :=
| Fulfilled (payload : Value)
| Rejected (error : Client.AxiosError).

Record Result (S : Type) : Type := mkResult {
  settled : Settled;
  effects : list Effect;
  server_after : S
}.
Arguments mkResult {S} settled effects server_after.
Arguments settled {S} r.
Arguments effects {S} r.
Arguments server_after {S} r.

Fixpoint perform (srv : Server) (p : Thunk Value) (st : server_state srv)
  : Result (server_state srv) :=
  match p with
  | Resolve a => mkResult (Fulfilled a) [] st
  | Reject e => mkResult (Rejected e) [] st
  | Request c k =>
      let '(answer, st') := respond srv c st in
      let r := perform srv (k answer) st' in
      mkResult (settled r) (Requested c :: effects r) (server_after r)
  | HistoryPush route k =>
      let r := perform srv k st in
      mkResult (settled r) (Pushed route :: effects r) (server_after r)
  | TokenSave token k =>
      let r := perform srv k st in
      mkResult (settled r) (TokenSaved token :: effects r) (server_after r)
  | TokenDrop k =>
      let r := perform srv k st in
      mkResult (settled r) (TokenDropped :: effects r) (server_after r)
  end.

Definition is_request (e : Effect) : bool :=
  match e with Requested _ => true | _ => false end.

Definition is_push (e : Effect) : bool :=
  match e with Pushed _ => true | _ => false end.

(** A server that answers from a script: each call takes the next answer,
    and is rejected without a response once the script is used up. *)
Definition scripted : Server :=
  mkServer (list (Client.AxiosError + Value))
    (fun _ script =>
       match script with
       | [] => (inl (Client.mkAxiosError "Network Error" None), [])
       | answer :: rest => (answer, rest)
       end).

End ClientActions.

(** ** Sample data for the client actions *)

Module ClientSample.

Definition constants : ClientActions.Constants :=
  {| ClientActions.ApiRoute_Offers := "/offers";
     ClientActions.ApiRoute_Favorite := "/favorite";
     ClientActions.ApiRoute_Premium := "/premium";
     ClientActions.ApiRoute_Login := "/login";
     ClientActions.ApiRoute_Register := "/register";
     ClientActions.ApiRoute_Users := "/users";
     ClientActions.ApiRoute_Comments := "/comments";
     ClientActions.AppRoute_Root := "/";
     ClientActions.AppRoute_Login := "/login";
     ClientActions.AppRoute_Property := "/property";
     ClientActions.HttpCode_NoAuth := 401 |}.

(** Adapters that hand their argument on. *)
Definition adapters : ClientActions.Adapters :=
  {| ClientActions.adaptOffersToClient := inr;
     ClientActions.adaptCommentToClient := inr;
     ClientActions.adaptOfferToClient := inr;
     ClientActions.adaptCommentsToClient := inr;
     ClientActions.adaptUserToClient := inr;
     ClientActions.adaptCreateCommentToServer := inr;
     ClientActions.adaptEditOfferToServer := inr;
     ClientActions.adaptCreateOfferToServer := inr;
     ClientActions.adaptSignupToServer := inr;
     ClientActions.adaptPreviewImageToServer := inr;
     ClientActions.adaptImagesToServer := inr |}.

Definition newOffer : Obj :=
  [("title", VStr "Loft"); ("previewImage", VStr "p.png");
   ("images", VArr [VStr "a.png"; VStr "b.png"])].

Definition created : Value := VObj [("id", VStr "o1"); ("title", VStr "Loft")].

Definition unauthorized : Client.AxiosError :=
  Client.mkAxiosError "AxiosError" (Some (Client.mkAxiosResponse 401)).

Definition unavailable : Client.AxiosError :=
  Client.mkAxiosError "AxiosError" (Some (Client.mkAxiosResponse 503)).

End ClientSample.

(** * Verification *)

(** ** Objects *)

Lemma lookup_set_field_eq k v o : lookup_field k (set_field k v o) = v.
Proof.
  induction o as [|[k' v'] o IH]; simpl.
  - now rewrite String.eqb_refl.
  - destruct (String.eqb k k') eqn:E; simpl.
    + now rewrite String.eqb_refl.
    + now rewrite E.
Qed.

Lemma has_set_field_eq k v o : has_field k (set_field k v o) = true.
Proof.
  induction o as [|[k' v'] o IH]; simpl.
  - now rewrite String.eqb_refl.
  - destruct (String.eqb k k') eqn:E; simpl.
    + now rewrite String.eqb_refl.
    + now rewrite E.
Qed.

(** A field that a response class exposes and the object has is copied as
    it is. *)
Lemma lookup_pick k exposed o :
  In k exposed -> has_field k o = true ->
  lookup_field k (pick exposed o) = lookup_field k o.
Proof.
  intros Hin Hhas. unfold pick.
  induction exposed as [|e exposed IH]; [destruct Hin|].
  simpl. destruct (String.eqb k e) eqn:E.
  - apply String.eqb_eq in E; subst e. rewrite Hhas. simpl.
    now rewrite String.eqb_refl.
  - destruct Hin as [->|Hin]; [now rewrite String.eqb_refl in E|].
    destruct (has_field e o); simpl; [rewrite E|]; auto.
Qed.

(** ** Runs *)

Lemma filter_refers_removed offerId cs :
  List.filter (MemoryStore.refers offerId)
    (List.filter (fun c => negb (MemoryStore.refers offerId c)) cs) = [].
Proof.
  induction cs as [|c cs IH]; simpl; [reflexivity|].
  destruct (MemoryStore.refers offerId c) eqn:E; simpl; [exact IH|].
  now rewrite E.
Qed.

(** Unfold the monad of handlers down to [run]. *)
Ltac prog_unfold :=
  unfold await, throw, Controller.ok, Controller.created,
    Controller.noContent, Controller.send, mbind, mret, Prog_bind, Prog_ret;
  cbn [bind run].

(** Name the answer of the next awaited operation. *)
Ltac answer_next :=
  match goal with
  | |- context [answer ?I ?o ?s] =>
      let v := fresh "v" in
      let s' := fresh "st" in
      destruct (answer I o s) as [v s'] eqn:?
  end.

(** ** Deleting an offer *)

(** C1. Handling DELETE /offers/:offerId invokes [deleteByOfferId] of the
    comment service for the same id right after [deleteById] of the offer
    service, and then answers 204: always in the later revision, and in the
    early revision whenever the delete succeeds (otherwise only [deleteById]
    was invoked and a 404 error is thrown).  Against the in-memory services,
    after a successful delete [findByOfferId] for that id returns the empty
    array and the offer is gone. *)
Theorem delete_cascades_to_comments (req : Request) :
  let offerId := of_opt_string (dict_get "offerId" (params req)) in
  (forall (I : Services) (st : state I),
      let r := run I (OfferController.delete req) st in
      outcome r = Done tt /\
      trace r =
        [Called (OfferDeleteById offerId);
         Called (CommentDeleteByOfferId offerId);
         Sent StatusCodes.NO_CONTENT
              (fst (answer I (OfferDeleteById offerId) st))])
  /\
  (forall (I : Services) (st : state I),
      let r := run I (OfferControllerEarly.delete req) st in
      match outcome r with
      | Done _ =>
          trace r =
            [Called (OfferDeleteById offerId);
             Called (CommentDeleteByOfferId offerId);
             Sent StatusCodes.NO_CONTENT
                  (fst (answer I (OfferDeleteById offerId) st))]
      | Failed e =>
          e = HttpErr (mkHttpError StatusCodes.NOT_FOUND
                         ("Offer with id "
                            ++ interpolate (dict_get "offerId" (params req))
                            ++ " not found.") "OfferContorller") /\
          trace r = [Called (OfferDeleteById offerId)]
      end)
  /\
  (forall st : MemoryStore.Store,
      let r := run MemoryStore.services (OfferController.delete req) st in
      fst (MemoryStore.answer (CommentFindByOfferId offerId) (final r))
        = VArr [] /\
      MemoryStore.find_offer offerId (final r) = None)
  /\
  (forall st : MemoryStore.Store,
      let r := run MemoryStore.services (OfferControllerEarly.delete req) st in
      match outcome r with
      | Done _ =>
          fst (MemoryStore.answer (CommentFindByOfferId offerId) (final r))
            = VArr [] /\
          MemoryStore.find_offer offerId (final r) = None
      | Failed _ => final r = st
      end).
Proof.
  intros offerId. repeat split.
  - unfold OfferController.delete. fold offerId. prog_unfold.
    do 2 answer_next. reflexivity.
  - unfold OfferController.delete. fold offerId. prog_unfold.
    do 2 answer_next. reflexivity.
  - intros I st. unfold OfferControllerEarly.delete. fold offerId. prog_unfold.
    answer_next. simpl. destruct (truthy v); simpl.
    + answer_next. reflexivity.
    + auto.
  - unfold OfferController.delete. fold offerId. prog_unfold. simpl.
    destruct offerId as [| | | |s| |]; simpl; try reflexivity;
      try apply f_equal, filter_refers_removed.
    destruct (MemoryStore.offers st !! s); simpl;
      apply f_equal, filter_refers_removed.
  - unfold OfferController.delete. fold offerId. prog_unfold. simpl.
    destruct offerId as [| | | |s| |]; simpl; try reflexivity.
    destruct (MemoryStore.offers st !! s) eqn:E; simpl; [|exact E].
    apply lookup_delete_eq.
  - intros st. unfold OfferControllerEarly.delete. fold offerId. prog_unfold.
    simpl.
    destruct offerId as [| | | |s| |]; simpl; try reflexivity.
    destruct (MemoryStore.offers st !! s) eqn:E; simpl; [|reflexivity].
    split; [apply f_equal, filter_refers_removed | apply lookup_delete_eq].
Qed.

Example delete_sample :
  let req := with_params [("offerId", Sample.offerId)] Sample.authenticated in
  let r := run MemoryStore.services
             (OfferController.delete req) Sample.store in
  MemoryStore.comments (final r) = [Sample.comment "c2" Sample.otherId "Fine"]
  /\ MemoryStore.offers (final r) !! Sample.offerId = None
  /\ calls (trace r) = [OfferDeleteById (VStr Sample.offerId);
                        CommentDeleteByOfferId (VStr Sample.offerId)].
Proof. vm_compute. auto. Qed.


(** ** Paths and dispatch *)

Lemma append_cons c s t : String c s ++ t = String c (s ++ t).
Proof. reflexivity. Qed.

Lemma append_snoc cur c rest :
  (cur ++ String c "") ++ rest = cur ++ String c rest.
Proof.
  induction cur as [|a cur IH]; [reflexivity|].
  rewrite !append_cons. f_equal. exact IH.
Qed.

Lemma append_empty_r s : s ++ "" = s.
Proof.
  induction s as [|a s IH]; [reflexivity|].
  rewrite append_cons. f_equal. exact IH.
Qed.

(** Reading a slash-free run of characters only extends the current
    segment. *)
Lemma segments_from_no_slash id rest cur :
  no_slash id = true ->
  segments_from (id ++ rest) cur = segments_from rest (cur ++ id).
Proof.
  revert cur. induction id as [|c id IH]; intros cur Hns.
  - now rewrite append_empty_r.
  - simpl in Hns. apply andb_prop in Hns as [Hc Hid].
    apply negb_true_iff in Hc. rewrite append_cons. simpl. rewrite Hc.
    rewrite (IH _ Hid). now rewrite append_snoc.
Qed.

Lemma is_segment_spec s :
  is_segment s = true -> no_slash s = true /\ String.eqb s "" = false.
Proof.
  unfold is_segment. intros Hs. apply andb_prop in Hs as [Hne Hns].
  apply negb_true_iff in Hne. auto.
Qed.

Lemma segments_one id :
  is_segment id = true -> segments ("/" ++ id) = [id].
Proof.
  intros [Hns Hne]%is_segment_spec. unfold segments.
  change ("/" ++ id) with (String "/"%char id). simpl.
  rewrite <- (append_empty_r id) at 1.
  rewrite (segments_from_no_slash id "" "" Hns).
  change ("" ++ id) with id. simpl. now rewrite Hne.
Qed.

Lemma segments_two id name :
  is_segment id = true -> is_segment name = true ->
  segments ("/" ++ id ++ "/" ++ name) = [id; name].
Proof.
  intros [Hns Hne]%is_segment_spec Hname. unfold segments.
  change ("/" ++ id ++ "/" ++ name) with (String "/"%char (id ++ "/" ++ name)).
  simpl. rewrite (segments_from_no_slash id _ "" Hns).
  change ("" ++ id) with id.
  change ("/" ++ name) with (String "/"%char name). simpl.
  rewrite Hne. f_equal. exact (segments_one name Hname).
Qed.

Lemma dispatch_previewImage `{Environment} id :
  is_segment id = true ->
  dispatch OfferController.routes Post ("/" ++ id ++ "/previewImage") =
    Some (mkRoute "/:offerId/previewImage" Post OfferController.this_uploadImage
            [ PrivateRouteMiddleware;
              ValidateObjectIdMiddleware "offerId";
              UploadFileMiddleware UPLOAD_DIRECTORY "image" ],
          [("offerId", id)]).
Proof.
  intros Hid. unfold dispatch.
  change ("/" ++ id ++ "/previewImage")
    with ("/" ++ id ++ "/" ++ "previewImage").
  rewrite (segments_two id "previewImage" Hid); reflexivity.
Qed.

(** The handlers of the later revision, each with whether its route lists
    the existence check: the two upload routes take an [offerId] and do not. *)
Lemma existence_checked_routes `{Environment} :
  List.map (fun r => (handler r, existsb is_document_exists (middlewares r)))
           OfferController.routes =
  [ (OfferController.this_index, false);
    (OfferController.this_create, false);
    (OfferController.this_findFavorite, false);
    (OfferController.this_show, true);
    (OfferController.this_delete, true);
    (OfferController.this_update, true);
    (OfferController.this_getComments, true);
    (OfferController.this_uploadImage, false);
    (OfferController.this_uploadImages, false);
    (OfferController.this_findPremium, false) ].
Proof. reflexivity. Qed.

Example delete_route_sample :
  option_map (fun rp => (handler (fst rp), snd rp))
    (dispatch (@OfferController.routes Sample.environment) Delete
       ("/" ++ Sample.offerId))
  = Some (OfferController.this_delete, [("offerId", Sample.offerId)]).
Proof. reflexivity. Qed.

(** The whole pipeline on the sample store: the offer and its two comments
    are removed, the comment of the other offer stays. *)
Example delete_pipeline_sample :
  exists p,
    @OfferController.handle Sample.environment Delete ("/" ++ Sample.offerId)
      Sample.authenticated = Some p /\
    let r := run MemoryStore.services p Sample.store in
    trace r =
      [Called (OfferExists (VStr Sample.offerId));
       Called (OfferDeleteById (VStr Sample.offerId));
       Called (CommentDeleteByOfferId (VStr Sample.offerId));
       Sent 204 (VObj Sample.offer)] /\
    MemoryStore.comments (final r)
      = [Sample.comment "c2" Sample.otherId "Fine"] /\
    fst (MemoryStore.answer (CommentFindByOfferId (VStr Sample.offerId))
           (final r)) = VArr [].
Proof. eexists. split; [reflexivity|]. vm_compute. auto. Qed.

(** Step through the middlewares of a route. *)
Ltac chain_unfold :=
  cbn [middlewares handler chain execute OfferController.methods];
  prog_unfold;
  cbn [with_params with_file with_files user params body dict_get
       String.eqb Ascii.eqb Bool.eqb].

(** ** The private-route gate *)

(** C3. An unauthenticated POST /offers is ended by the private-route
    middleware with a 401 error before the [create] handler runs: no
    operation of any service is invoked, nothing is sent by the handler, and
    the state of the services is the one before the request. *)
Theorem unauthenticated_create_rejected `{Environment}
    (I : Services) (st : state I) (req : Request) :
  nullish (user req) = true ->
  exists p,
    OfferController.handle Post "/" req = Some p /\
    run I p st =
      mkRun (Failed (HttpErr (mkHttpError StatusCodes.UNAUTHORIZED
                                "Unauthorized" "PrivateRouteMiddleware")))
            [] st.
Proof.
  intros Hanon. eexists. split; [reflexivity|].
  chain_unfold. rewrite Hanon. reflexivity.
Qed.

Lemma unauthenticated_create_rejected_witness :
  nullish (user Sample.anonymous) = true /\
  exists p,
    @OfferController.handle Sample.environment Post "/" Sample.anonymous
      = Some p /\
    run MemoryStore.services p Sample.store =
      mkRun (Failed (HttpErr (mkHttpError StatusCodes.UNAUTHORIZED
                                "Unauthorized" "PrivateRouteMiddleware")))
            [] Sample.store.
Proof.
  split; [reflexivity|].
  apply (@unauthenticated_create_rejected Sample.environment
           MemoryStore.services Sample.store Sample.anonymous).
  reflexivity.
Defined.

(** ** Uploading a preview image *)

(** C9. An authenticated POST /offers/:offerId/previewImage with a
    well-formed id always ends in a 201 response, whatever the services
    answer: the handler stores under [previewImage] the file name read with
    optional chaining (so [undefined] when no file was attached), awaits
    [updateById] without looking at its result, and sends 201.  Against the
    in-memory services, when no offer has that id the response is still 201
    and the store is left as it was. *)
Theorem uploadImage_always_created `{Environment}
    (req : Request) (id : string) :
  is_segment id = true ->
  nullish (user req) = false ->
  isValidObjectId id = true ->
  exists p,
    OfferController.handle Post ("/" ++ id ++ "/previewImage") req = Some p /\
    (forall (I : Services) (st : state I),
        let r := run I p st in
        let stored :=
          fst (answer I (StoreSingle UPLOAD_DIRECTORY "image") st) in
        let updateDto :=
          VObj [("previewImage", opt_chain stored "filename")] in
        outcome r = Done tt /\
        calls (trace r) =
          [StoreSingle UPLOAD_DIRECTORY "image";
           OfferUpdateById (VStr id) updateDto] /\
        responses (trace r) =
          [(StatusCodes.CREATED,
            fillDTO UploadImageResponse (VObj [("updateDto", updateDto)]))]) /\
    (forall st : MemoryStore.Store,
        MemoryStore.offers st !! id = None ->
        let r := run MemoryStore.services p st in
        outcome r = Done tt /\
        List.map fst (responses (trace r)) = [StatusCodes.CREATED] /\
        final r = st).
Proof.
  intros Hid Hauth Hvalid. eexists. split; [|split].
  - unfold OfferController.handle, serve.
    rewrite (dispatch_previewImage id Hid). reflexivity.
  - intros I st. chain_unfold. rewrite Hauth. chain_unfold. rewrite Hvalid.
    unfold OfferController.uploadImage. prog_unfold.
    do 2 answer_next. cbn. auto.
  - intros st Hnone. chain_unfold. rewrite Hauth. chain_unfold.
    rewrite Hvalid. unfold OfferController.uploadImage. prog_unfold.
    cbn. rewrite Hnone. cbn. auto.
Qed.

Lemma uploadImage_always_created_witness :
  exists p,
    @OfferController.handle Sample.environment Post
      ("/" ++ Sample.offerId ++ "/previewImage") Sample.authenticated
      = Some p /\
    let r := run MemoryStore.services p Sample.emptyStore in
    outcome r = Done tt /\
    responses (trace r) =
      [(StatusCodes.CREATED, VObj [])] /\
    final r = Sample.emptyStore.
Proof.
  destruct (@uploadImage_always_created Sample.environment
              Sample.authenticated Sample.offerId
              eq_refl eq_refl eq_refl) as (p & Hp & Hany & Hnone).
  exists p. split; [exact Hp|].
  destruct (Hany MemoryStore.services Sample.emptyStore) as (Hdone & _ & Hsent).
  destruct (Hnone Sample.emptyStore eq_refl) as (_ & _ & Hfinal).
  cbv zeta. split; [exact Hdone|]. split; [|exact Hfinal].
  rewrite Hsent. reflexivity.
Defined.

(** Without a file in the request the handler stores [undefined] under
    [previewImage] and still answers 201. *)
Example uploadImage_without_file_sample :
  exists p,
    @OfferController.handle Sample.environment Post
      ("/" ++ Sample.offerId ++ "/previewImage") Sample.authenticated
      = Some p /\
    let r := run MemoryStore.services p Sample.store in
    calls (trace r) =
      [StoreSingle "upload" "image";
       OfferUpdateById (VStr Sample.offerId)
         (VObj [("previewImage", VUndefined)])] /\
    List.map fst (responses (trace r)) = [201].
Proof. eexists. split; [reflexivity|]. vm_compute. auto. Qed.

(** C2. The route of [uploadImage] lists no existence check, so for an
    authenticated request with a well-formed id of an offer that does not
    exist the chain lets the handler run: it invokes [updateById] for that
    id and answers 201, with nothing stored. *)
Theorem uploadImage_runs_for_missing_offer `{Environment}
    (st : MemoryStore.Store) (req : Request) (id : string) :
  is_segment id = true ->
  nullish (user req) = false ->
  isValidObjectId id = true ->
  MemoryStore.offers st !! id = None ->
  exists route p,
    dispatch OfferController.routes Post ("/" ++ id ++ "/previewImage")
      = Some (route, [("offerId", id)]) /\
    handler route = OfferController.this_uploadImage /\
    existsb is_document_exists (middlewares route) = false /\
    OfferController.handle Post ("/" ++ id ++ "/previewImage") req = Some p /\
    let r := run MemoryStore.services p st in
    fst (MemoryStore.answer (OfferExists (VStr id)) st) = VBool false /\
    outcome r = Done tt /\
    calls (trace r) =
      [StoreSingle UPLOAD_DIRECTORY "image";
       OfferUpdateById (VStr id)
         (VObj [("previewImage",
                 opt_chain (MemoryStore.pendingFile st) "filename")])] /\
    List.map fst (responses (trace r)) = [StatusCodes.CREATED] /\
    final r = st.
Proof.
  intros Hid Hauth Hvalid Hnone. eexists. eexists.
  split; [exact (dispatch_previewImage id Hid)|].
  split; [reflexivity|]. split; [reflexivity|]. split.
  - unfold OfferController.handle, serve.
    rewrite (dispatch_previewImage id Hid). reflexivity.
  - chain_unfold. rewrite Hauth. chain_unfold. rewrite Hvalid.
    unfold OfferController.uploadImage. prog_unfold.
    cbn. rewrite Hnone. cbn. auto.
Qed.

Lemma uploadImage_runs_for_missing_offer_witness :
  exists p,
    @OfferController.handle Sample.environment Post
      ("/" ++ Sample.offerId ++ "/previewImage") Sample.authenticated
      = Some p /\
    MemoryStore.offers Sample.emptyStore !! Sample.offerId = None /\
    outcome (run MemoryStore.services p Sample.emptyStore) = Done tt /\
    List.map fst (responses (trace (run MemoryStore.services p
                                      Sample.emptyStore)))
      = [StatusCodes.CREATED].
Proof.
  destruct (@uploadImage_runs_for_missing_offer Sample.environment
              Sample.emptyStore Sample.authenticated Sample.offerId
              eq_refl eq_refl eq_refl eq_refl)
    as (route & p & _ & _ & _ & Hp & _ & Hdone & _ & Hsent & _).
  exists p. split; [exact Hp|]. split; [reflexivity|].
  split; [exact Hdone | exact Hsent].
Defined.

(** The same for [uploadImages], with two files in the request. *)
Example uploadImages_runs_for_missing_offer_sample :
  let st :=
    {| MemoryStore.offers := ∅;
       MemoryStore.comments := [];
       MemoryStore.pendingFile := VUndefined;
       MemoryStore.pendingFiles :=
         VArr [VObj [("filename", VStr "a.png")];
               VObj [("filename", VStr "b.png")]] |} in
  exists p,
    @OfferController.handle Sample.environment Post
      ("/" ++ Sample.offerId ++ "/offerImages") Sample.authenticated
      = Some p /\
    let r := run MemoryStore.services p st in
    outcome r = Done tt /\
    calls (trace r) =
      [StoreArray "upload" "image";
       OfferUpdateById (VStr Sample.offerId)
         (VObj [("offerImages", VArr [VStr "a.png"; VStr "b.png"])])] /\
    responses (trace r) =
      [(201, VObj [("offerImages", VArr [VStr "a.png"; VStr "b.png"])])] /\
    final r = st.
Proof. eexists. split; [reflexivity|]. vm_compute. auto. Qed.

(** The routes that do list the existence check reject the same request with
    404 before their handler runs. *)
Example show_rejects_missing_offer :
  exists p,
    @OfferController.handle Sample.environment Get ("/" ++ Sample.offerId)
      Sample.authenticated = Some p /\
    run MemoryStore.services p Sample.emptyStore =
      mkRun (Failed (HttpErr (mkHttpError StatusCodes.NOT_FOUND
                                ("Offer with " ++ Sample.offerId
                                   ++ " not found.")
                                "DocumentExistsMiddleware")))
            [Called (OfferExists (VStr Sample.offerId))]
            Sample.emptyStore.
Proof. eexists. split; reflexivity. Qed.

(** ** Showing an offer, early revision *)

(** C5. In the early revision, when [findById] answers an absent result the
    [show] handler throws a typed HTTP error whose status is 501 (Not
    Implemented), not 404. *)
Theorem show_early_absent_not_implemented `{Environment}
    (I : Services) (st : state I) (req : Request) :
  let offerId := of_opt_string (dict_get "offerId" (params req)) in
  truthy (fst (answer I (OfferFindById offerId) st)) = false ->
  run I (OfferControllerEarly.show req) st =
    mkRun (Failed (HttpErr (mkHttpError StatusCodes.NOT_IMPLEMENTED
                              "Not implemented" "OfferContorller")))
          [Called (OfferFindById offerId)]
          (snd (answer I (OfferFindById offerId) st))
  /\ StatusCodes.NOT_IMPLEMENTED <> StatusCodes.NOT_FOUND.
Proof.
  intros offerId Habsent. split; [|discriminate].
  unfold OfferControllerEarly.show. fold offerId.
  prog_unfold. destruct (answer I (OfferFindById offerId) st) as [v st'].
  simpl in *. rewrite Habsent. reflexivity.
Qed.

Lemma show_early_absent_not_implemented_witness :
  let req := with_params [("offerId", Sample.offerId)] Sample.anonymous in
  outcome (run MemoryStore.services
             (@OfferControllerEarly.show Sample.environment req)
             Sample.emptyStore)
  = Failed (HttpErr (mkHttpError 501 "Not implemented" "OfferContorller")).
Proof.
  intros req.
  destruct (@show_early_absent_not_implemented Sample.environment
              MemoryStore.services Sample.emptyStore req eq_refl)
    as [Hrun _].
  rewrite Hrun. reflexivity.
Defined.

(** The sibling handlers of the early revision signal 404 on an absent
    offer. *)
Example update_early_absent_not_found :
  let req := with_params [("offerId", Sample.offerId)] Sample.anonymous in
  outcome (run MemoryStore.services
             (@OfferControllerEarly.update Sample.environment req)
             Sample.emptyStore)
  = Failed (HttpErr (mkHttpError 404
                       ("Offer with id " ++ Sample.offerId ++ " not found.")
                       "OfferController")).
Proof. reflexivity. Qed.

(** ** Favorite offers *)

(** C8. In the early revision GET /offers/favorite is not dispatched to
    [findFavorite]: the route [/:offerId] is registered before [/favorite],
    so the request reaches [show] with ["favorite"] as the offer id, and
    serving it invokes [findById("favorite")] and never [findFavorite],
    whatever the services answer. *)
Theorem favorite_early_dispatched_to_show `{Environment}
    (I : Services) (st : state I) (req : Request) :
  option_map (fun rp => (handler (fst rp), snd rp))
    (dispatch OfferControllerEarly.routes Get "/favorite")
  = Some (OfferControllerEarly.this_show, [("offerId", "favorite")])
  /\ option_map (fun rp => handler (fst rp))
       (dispatch OfferControllerEarly.routes Get "/favorite")
     <> Some OfferControllerEarly.this_findFavorite
  /\ exists p,
       OfferControllerEarly.handle Get "/favorite" req = Some p /\
       calls (trace (run I p st)) = [OfferFindById (VStr "favorite")].
Proof.
  split; [reflexivity|]. split; [discriminate|].
  eexists. split; [reflexivity|].
  chain_unfold. cbn [OfferControllerEarly.methods].
  unfold OfferControllerEarly.show. prog_unfold.
  cbn [params with_params dict_get String.eqb Ascii.eqb Bool.eqb
       of_opt_string].
  answer_next. cbn. destruct (truthy v); reflexivity.
Qed.

(** The same request on the sample store: the answer is the 501 error of the
    early [show] for an offer that does not exist. *)
Example favorite_early_sample :
  exists p,
    @OfferControllerEarly.handle Sample.environment Get "/favorite"
      Sample.anonymous = Some p /\
    run MemoryStore.services p Sample.store =
      mkRun (Failed (HttpErr (mkHttpError 501 "Not implemented"
                                "OfferContorller")))
            [Called (OfferFindById (VStr "favorite"))] Sample.store.
Proof. eexists. split; reflexivity. Qed.

(** The later revision registers [/favorite] before [/:offerId]: there every
    GET /offers/favorite is dispatched to [findFavorite], which invokes the
    service operation [findFavorite] with no argument and responds 200 with
    the mapped offers. *)
Lemma favorite_later_dispatched_to_findFavorite `{Environment}
    (I : Services) (st : state I) (req : Request) :
  exists route p,
    dispatch OfferController.routes Get "/favorite" = Some (route, []) /\
    handler route = OfferController.this_findFavorite /\
    OfferController.handle Get "/favorite" req = Some p /\
    let r := run I p st in
    let offers := fst (answer I (OfferFindFavorite []) st) in
    outcome r = Done tt /\
    calls (trace r) = [OfferFindFavorite []] /\
    responses (trace r) =
      [(StatusCodes.OK, fillDTO OffersResponse offers)].
Proof.
  eexists. eexists. split; [reflexivity|]. split; [reflexivity|].
  split; [reflexivity|]. chain_unfold.
  unfold OfferController.findFavorite. prog_unfold. answer_next. cbn. auto.
Qed.

(** ** Creating an offer *)

(** The later [create] handler against any services: two operations, then
    the response. *)
Lemma create_run `{Environment} (I : Services) (st : state I) (req : Request)
    (u created : Obj) :
  user req = VObj u ->
  let dto := VObj (spread (body req) [("userId", lookup_field "id" u)]) in
  fst (answer I (OfferCreate dto) st) = VObj created ->
  let st1 := snd (answer I (OfferCreate dto) st) in
  let found := answer I (OfferFindById (lookup_field "id" created)) st1 in
  run I (OfferController.create req) st =
    mkRun (Done tt)
      [Called (OfferCreate dto);
       Called (OfferFindById (lookup_field "id" created));
       Sent StatusCodes.CREATED (fillDTO OfferResponse (fst found))]
      (snd found).
Proof.
  intros Huser dto. subst dto. cbv zeta. intros Hcreated.
  unfold OfferController.create. rewrite Huser.
  prog_unfold. cbn [get_prop bind run].
  destruct (answer I (OfferCreate _) st) as [result st1].
  simpl in Hcreated. subst result. cbn [get_prop bind run fst snd].
  destruct (answer I (OfferFindById (lookup_field "id" created)) st1).
  reflexivity.
Qed.

(** A request that passes the gate and the DTO validation reaches the
    handler as it came. *)
Lemma create_route `{Environment} (req : Request) :
  nullish (user req) = false ->
  isValidDto CreateOfferDto (body req) = true ->
  exists p,
    OfferController.handle Post "/" req = Some p /\
    forall (I : Services) (st : state I),
      run I p st = run I (OfferController.create (with_params [] req)) st.
Proof.
  intros Hauth Hvalid. eexists. split; [reflexivity|]. intros I st.
  chain_unfold. rewrite Hauth. chain_unfold. rewrite Hvalid. reflexivity.
Qed.

(** The in-memory [create] stores the document under a fresh id, where
    [findById] then finds it. *)
Lemma memory_create dto st :
  let newId := fresh (dom (MemoryStore.offers st)) in
  let doc := set_field "id" (VStr newId) (MemoryStore.fields_of dto) in
  let st1 :=
    MemoryStore.with_offers (<[newId := doc]> (MemoryStore.offers st)) st in
  MemoryStore.answer (OfferCreate dto) st = (VObj doc, st1) /\
  MemoryStore.offers st !! newId = None /\
  MemoryStore.answer (OfferFindById (VStr newId)) st1 = (VObj doc, st1).
Proof.
  intros newId doc st1. split; [reflexivity|]. split.
  - apply not_elem_of_dom. apply is_fresh.
  - unfold MemoryStore.answer, MemoryStore.find_offer, st1.
    cbn [MemoryStore.offers MemoryStore.with_offers].
    now rewrite lookup_insert_eq.
Qed.

(** C4. For an authenticated request with a valid body, POST /offers runs
    [create], which against any services invokes [create], then [findById]
    on the [id] of what [create] returned, and responds 201 with the
    [OfferResponse] mapping of what [findById] found.  Against the in-memory
    services the body carries the id of the new offer, no offer had that id
    before, and [show] for that id afterwards responds 200 with the same
    body. *)
Theorem create_then_show_round_trip `{Environment} (req : Request) (u : Obj) :
  user req = VObj u ->
  isValidDto CreateOfferDto (body req) = true ->
  In "id" (exposedFields OfferResponse) ->
  let dto := VObj (spread (body req) [("userId", lookup_field "id" u)]) in
  exists p,
    OfferController.handle Post "/" req = Some p /\
    (forall (I : Services) (st : state I) (created : Obj),
        fst (answer I (OfferCreate dto) st) = VObj created ->
        let st1 := snd (answer I (OfferCreate dto) st) in
        let found := answer I (OfferFindById (lookup_field "id" created)) st1 in
        run I p st =
          mkRun (Done tt)
            [Called (OfferCreate dto);
             Called (OfferFindById (lookup_field "id" created));
             Sent StatusCodes.CREATED (fillDTO OfferResponse (fst found))]
            (snd found)) /\
    (forall st : MemoryStore.Store,
        exists (newId : string) (data : Value),
          let r := run MemoryStore.services p st in
          outcome r = Done tt /\
          responses (trace r) = [(StatusCodes.CREATED, data)] /\
          opt_chain data "id" = VStr newId /\
          MemoryStore.offers st !! newId = None /\
          let r' := run MemoryStore.services
                      (OfferController.show
                         (with_params [("offerId", newId)] req))
                      (final r) in
          outcome r' = Done tt /\
          calls (trace r') = [OfferFindById (VStr newId)] /\
          responses (trace r') = [(StatusCodes.OK, data)]).
Proof.
  intros Huser Hvalid Hid dto.
  assert (Hauth : nullish (user req) = false) by now rewrite Huser.
  destruct (create_route req Hauth Hvalid) as (p & Hp & Hrun).
  exists p. split; [exact Hp|]. split.
  - intros I st created Hcreated. rewrite Hrun.
    exact (create_run I st (with_params [] req) u created Huser Hcreated).
  - intros st.
    destruct (memory_create dto st) as (Hcreate & Hfresh & Hfind).
    set (newId := fresh (dom (MemoryStore.offers st))) in *.
    set (doc := set_field "id" (VStr newId) (MemoryStore.fields_of dto)) in *.
    set (st1 := MemoryStore.with_offers _ st) in *.
    assert (Hdoc : lookup_field "id" doc = VStr newId)
      by apply lookup_set_field_eq.
    exists newId, (fillDTO OfferResponse (VObj doc)).
    rewrite Hrun.
    rewrite (create_run MemoryStore.services st (with_params [] req) u doc
               Huser);
      [|exact (f_equal fst Hcreate)].
    cbn [answer MemoryStore.services body with_params]. fold dto.
    rewrite Hcreate. cbn [fst snd]. rewrite Hdoc, Hfind.
    cbn [outcome trace final responses omap fst snd].
    split; [reflexivity|]. split; [reflexivity|]. split.
    { unfold fillDTO, plainToInstance, opt_chain.
      rewrite (lookup_pick "id" _ doc Hid); [exact Hdoc|].
      apply has_set_field_eq. }
    split; [exact Hfresh|].
    unfold OfferController.show. prog_unfold.
    cbn [with_params params dict_get String.eqb Ascii.eqb Bool.eqb
         of_opt_string answer MemoryStore.services].
    rewrite Hfind. cbn. auto.
Qed.

Lemma create_then_show_round_trip_witness :
  exists p,
    @OfferController.handle Sample.environment Post "/" Sample.authenticated
      = Some p /\
    exists (newId : string) (data : Value),
      let r := run MemoryStore.services p Sample.store in
      responses (trace r) = [(StatusCodes.CREATED, data)] /\
      opt_chain data "id" = VStr newId /\
      responses (trace (run MemoryStore.services
                          (@OfferController.show Sample.environment
                             (with_params [("offerId", newId)]
                                Sample.authenticated))
                          (final r)))
        = [(StatusCodes.OK, data)].
Proof.
  destruct (@create_then_show_round_trip Sample.environment
              Sample.authenticated
              [("id", VStr "u1"); ("email", VStr "a@b.c")]
              eq_refl eq_refl (or_introl eq_refl)) as (p & Hp & _ & Hmem).
  exists p. split; [exact Hp|].
  destruct (Hmem Sample.store)
    as (newId & data & _ & Hsent & Hid & _ & _ & _ & Hshow).
  exists newId, data. cbv zeta. auto.
Defined.

Example create_sample :
  exists p,
    @OfferController.handle Sample.environment Post "/" Sample.authenticated
      = Some p /\
    responses (trace (run MemoryStore.services p Sample.emptyStore))
      = [(201, VObj [("id", VStr (fresh (∅ : gset string)));
                     ("title", VStr "Loft")])].
Proof. eexists. split; [reflexivity|]. vm_compute. reflexivity. Qed.

(** ** The user entity and its response *)

Section Passwords.
Variable createSHA256 : string -> string -> string.

Abbreviation hash_of :=
  (option_map (fun c : string * string => createSHA256 (fst c) (snd c))).

(** Operations keep the public fields, and keep the password field equal to
    the hash of the last credentials seen. *)
Lemma perform_all_invariant ops :
  forall (this : UserEntity.UserEntity) (seen : option (string * string)),
    UserEntity.password this = hash_of seen ->
    let after := UserEntity.perform_all createSHA256 ops this in
    UserEntity.password after
      = hash_of (UserEntity.last_credentials ops seen)
    /\ UserEntity.name after = UserEntity.name this
    /\ UserEntity.email after = UserEntity.email this
    /\ UserEntity.avatarPath after = UserEntity.avatarPath this
    /\ UserEntity.userType after = UserEntity.userType this.
Proof.
  induction ops as [|op ops IH]; intros this seen Hseen; cbn zeta.
  - simpl. auto.
  - destruct op as [password salt|]; simpl.
    + apply (IH (UserEntity.setPassword createSHA256 password salt this)
                (Some (password, salt))).
      reflexivity.
    + apply (IH this seen Hseen).
Qed.

(** C7. Whatever operations are performed on a [UserEntity] built by the
    constructor, its password field is unset until the first [setPassword]
    and afterwards holds [createSHA256(password, salt)] of the last
    [setPassword]; every other field still holds what the constructor copied
    from its argument, so no operation assigns a password to them. *)
Theorem password_only_holds_salted_hash
    (data : UserEntity.User) (ops : list UserEntity.Operation) :
  let this :=
    UserEntity.perform_all createSHA256 ops (UserEntity.constructor data) in
  UserEntity.getPassword this
    = hash_of (UserEntity.last_credentials ops None)
  /\ (forall password salt,
         UserEntity.getPassword
           (UserEntity.setPassword createSHA256 password salt this)
         = Some (createSHA256 password salt))
  /\ UserEntity.getPassword (UserEntity.constructor data) = None
  /\ UserEntity.name this = UserEntity.data_name data
  /\ UserEntity.email this = UserEntity.data_email data
  /\ UserEntity.avatarPath this = UserEntity.data_avatarPath data
  /\ UserEntity.userType this = UserEntity.data_userType data.
Proof.
  intros this.
  destruct (perform_all_invariant ops (UserEntity.constructor data) None
              eq_refl) as (Hpw & Hname & Hemail & Havatar & Htype).
  repeat split; auto.
Qed.

End Passwords.

Example password_sample :
  let createSHA256 := fun password salt => "sha256(" ++ password ++ "," ++ salt ++ ")" in
  UserEntity.getPassword
    (UserEntity.perform_all createSHA256
       [UserEntity.SetPassword "first" "salt"; UserEntity.GetPassword;
        UserEntity.SetPassword "secret" "pepper"]
       (UserEntity.constructor (UserEntity.mkUser "Ann" "ann@x.io" "a.png" "pro")))
  = Some "sha256(secret,pepper)".
Proof. reflexivity. Qed.

(** C6. The response object of a user, for every entity and id, has exactly
    the fields id, name, email, avatarPath and userType with the entity's
    values: the [password] field of the stored document is not in it. *)
Theorem user_response_omits_password
    (id : string) (this : UserEntity.UserEntity) :
  has_field "password" (UserEntity.toObject id this) = true /\
  exists o,
    UserEntity.userResponse id this = VObj o /\
    has_field "password" o = false /\
    List.map fst o = ["id"; "name"; "email"; "avatarPath"; "userType"] /\
    (forall k, has_field k o = true ->
               lookup_field k o = lookup_field k (UserEntity.toObject id this)
               /\ (In (k, UserEntity.Public) UserEntity.properties
                   \/ k = "id")).
Proof.
  split; [reflexivity|].
  eexists. split; [reflexivity|]. split; [reflexivity|].
  split; [reflexivity|].
  intros k Hk. cbn in Hk.
  repeat match type of Hk with
         | orb (String.eqb k ?f) _ = true =>
             destruct (String.eqb_spec k f) as [E|_];
             [ subst k; split; [reflexivity | first [now right | left; cbn; tauto]]
             | cbn [orb] in Hk ]
         end.
  discriminate.
Qed.

Lemma user_response_omits_password_witness :
  let this :=
    UserEntity.setPassword (fun password salt => password ++ salt)
      "secret" "salt"
      (UserEntity.constructor
         (UserEntity.mkUser "Ann" "ann@x.io" "a.png" "pro")) in
  lookup_field "password" (UserEntity.toObject "u1" this) = VStr "secretsalt"
  /\ UserEntity.userResponse "u1" this
     = VObj [("id", VStr "u1"); ("name", VStr "Ann");
             ("email", VStr "ann@x.io"); ("avatarPath", VStr "a.png");
             ("userType", VStr "pro")].
Proof.
  intros this. split; [reflexivity|].
  destruct (user_response_omits_password "u1" this)
    as (_ & o & Ho & _ & _ & _).
  rewrite Ho. injection Ho as <-. reflexivity.
Defined.

(** ** The client action *)

Section FetchOffer.
Variables OfferDto Offer : Type.
Variable adaptOfferToClient : OfferDto -> Client.AxiosError + Offer.
Variables ApiRoute_Offers AppRoute_NotFound : string.

Abbreviation fetch :=
  (Client.fetchOffer OfferDto Offer adaptOfferToClient ApiRoute_Offers
     AppRoute_NotFound).

(** C10. When the request of [fetchOffer] is rejected with an error whose
    response has status 404, the NotFound route is pushed on the history and
    the promise is rejected with that same error; when it is rejected with
    any other error (another status, or no response), the promise is rejected
    with the error and the history is untouched; when it is resolved and the
    DTO adapts, the promise is fulfilled with the adapted offer and the
    history is untouched. *)
Theorem fetchOffer_settles
    (api : Client.AxiosInstance OfferDto) (history : list string)
    (id : string) :
  let url := ApiRoute_Offers ++ "/" ++ id in
  (forall error,
      Client.get OfferDto api url = inl error ->
      Client.response error = Some (Client.mkAxiosResponse 404) ->
      fetch api history id
        = (Client.Rejected Offer error, AppRoute_NotFound :: history))
  /\
  (forall error,
      Client.get OfferDto api url = inl error ->
      (forall r, Client.response error = Some r -> Client.status r <> 404) ->
      fetch api history id = (Client.Rejected Offer error, history))
  /\
  (forall data offer,
      Client.get OfferDto api url = inr data ->
      adaptOfferToClient data = inr offer ->
      fetch api history id = (Client.Fulfilled Offer offer, history)).
Proof.
  intros url. unfold Client.fetchOffer. fold url. repeat split.
  - intros error Hget Hresp. rewrite Hget. unfold Client.on_error.
    rewrite Hresp. reflexivity.
  - intros error Hget Hother. rewrite Hget. unfold Client.on_error.
    destruct (Client.response error) as [r|] eqn:Hresp; [|reflexivity].
    specialize (Hother r eq_refl).
    destruct (Z.eqb_spec (Client.status r) Client.HttpCode.NotFound) as [E|_];
      [contradiction | reflexivity].
  - intros data offer Hget Hadapt. rewrite Hget, Hadapt. reflexivity.
Qed.

End FetchOffer.

Lemma fetchOffer_settles_witness :
  let adapt := fun dto : string => inr ("offer:" ++ dto)
               : Client.AxiosError + string in
  let notFound := Client.mkAxiosError "AxiosError"
                    (Some (Client.mkAxiosResponse 404)) in
  let unavailable := Client.mkAxiosError "AxiosError"
                       (Some (Client.mkAxiosResponse 503)) in
  let fetch get :=
    Client.fetchOffer string string adapt "/offers" "/404"
      (Client.mkAxiosInstance string get) ["/"] "42" in
  fetch (fun _ => inl notFound) = (Client.Rejected string notFound, ["/404"; "/"])
  /\ fetch (fun _ => inl unavailable)
     = (Client.Rejected string unavailable, ["/"])
  /\ fetch (fun url => inr url) = (Client.Fulfilled string "offer:/offers/42", ["/"]).
Proof.
  intros adapt notFound unavailable fetch. unfold fetch.
  split; [|split].
  - apply (fetchOffer_settles string string adapt "/offers" "/404"
             (Client.mkAxiosInstance string (fun _ => inl notFound))
             ["/"] "42"); reflexivity.
  - apply (fetchOffer_settles string string adapt "/offers" "/404"
             (Client.mkAxiosInstance string (fun _ => inl unavailable))
             ["/"] "42"); [reflexivity|].
    intros r Hr. injection Hr as <-. discriminate.
  - destruct (fetchOffer_settles string string adapt "/offers" "/404"
                (Client.mkAxiosInstance string (fun url => inr url))
                ["/"] "42") as (_ & _ & Hresolved).
    apply (Hresolved "/offers/42" "offer:/offers/42"); reflexivity.
Defined.

(** ** Every handler, every route *)

Lemma responds_once_run (I : Services) (p : Prog unit) :
  responds_once p ->
  forall st : state I,
    let r := run I p st in
    match outcome r with
    | Done _ =>
        exists ops statusCode data,
          trace r = (List.map Called ops ++ [Sent statusCode data])%list
    | Failed _ => exists ops, trace r = List.map Called ops
    end.
Proof.
  induction p as [a|e|o k IH|s d k IH]; simpl; intros Hp st.
  - destruct Hp.
  - exists []. reflexivity.
  - destruct (answer I o st) as [v st']. specialize (IH v (Hp v) st').
    simpl in *. destruct (outcome (run I (k v) st')).
    + destruct IH as (ops & sc & dt & ->). exists (o :: ops), sc, dt. reflexivity.
    + destruct IH as (ops & ->). exists (o :: ops). reflexivity.
  - subst k. simpl. exists [], s, d. reflexivity.
Qed.

Lemma filenames_shape (l : list Value) :
  (exists names, OfferController.filenames l = Ret names) \/
  (exists e, OfferController.filenames l = Throw e).
Proof.
  induction l as [|f l IH]; simpl; [left; eauto|].
  unfold mbind, Prog_bind.
  destruct f; simpl; try (right; eauto; fail);
    destruct IH as [[names ->]|[e ->]]; simpl; eauto.
Qed.

Ltac handler_cases :=
  repeat first
    [ progress (prog_unfold; cbn [responds_once])
    | match goal with
      | |- forall _, _ => intro
      | |- context [if ?b then _ else _] => destruct b
      | |- context [get_prop ?v _] => destruct v; cbn [get_prop]
      end
    | reflexivity | exact Logic.I ].

Lemma handlers_respond_once `{Environment} :
  (forall h req, responds_once (OfferController.methods h req)) /\
  (forall h req, responds_once (OfferControllerEarly.methods h req)).
Proof.
  split; intros h req; destruct h; cbn [OfferController.methods OfferControllerEarly.methods].
  all: try (unfold OfferController.show, OfferController.index, OfferController.create,
    OfferController.delete, OfferController.update, OfferController.getComments,
    OfferController.findPremium, OfferController.findFavorite, OfferController.uploadImage,
    OfferControllerEarly.show, OfferControllerEarly.index, OfferControllerEarly.create,
    OfferControllerEarly.delete, OfferControllerEarly.update, OfferControllerEarly.getComments,
    OfferControllerEarly.findPremium, OfferControllerEarly.findFavorite; handler_cases; fail).
  unfold OfferController.uploadImages.
  destruct (files req); cbn [responds_once]; try exact Logic.I.
  destruct (filenames_shape items) as [[names E]|[e E]]; rewrite E;
    prog_unfold; cbn [responds_once]; [intros v; reflexivity | exact Logic.I].
Qed.

(** X1. In both revisions a handler that completes has sent exactly one
    response, as the last thing it did, and a handler that throws has sent
    none: whatever the services answer, the trace of a run is a sequence of
    service operations, followed by one response when the run succeeds. *)
Theorem every_handler_responds_once `{Environment}
    (I : Services) (st : state I) (req : Request) :
  (forall h,
      let r := run I (OfferController.methods h req) st in
      match outcome r with
      | Done _ =>
          exists ops statusCode data,
            trace r = (List.map Called ops ++ [Sent statusCode data])%list
      | Failed _ => exists ops, trace r = List.map Called ops
      end) /\
  (forall h,
      let r := run I (OfferControllerEarly.methods h req) st in
      match outcome r with
      | Done _ =>
          exists ops statusCode data,
            trace r = (List.map Called ops ++ [Sent statusCode data])%list
      | Failed _ => exists ops, trace r = List.map Called ops
      end).
Proof.
  destruct handlers_respond_once as [Hlater Hearly].
  split; intros h; apply responds_once_run; auto.
Qed.

Lemma all_calls_run {A : Type} (P : Op -> Prop) (I : Services) (p : Prog A) :
  all_calls P p -> forall st : state I, Forall P (calls (trace (run I p st))).
Proof.
  induction p as [a|e|o k IH|s d k IH]; simpl; intros Hp st.
  - constructor.
  - constructor.
  - destruct Hp as [Ho Hk]. destruct (answer I o st) as [v st'].
    simpl. constructor; [exact Ho|]. apply IH, Hk.
  - apply IH, Hp.
Qed.

Lemma all_calls_bind {A B : Type} (P : Op -> Prop) (p : Prog A) (f : A -> Prog B) :
  all_calls P p -> (forall a, all_calls P (f a)) -> all_calls P (bind p f).
Proof.
  intros Hp Hf. induction p as [a|e|o k IH|s d k IH]; simpl in *; auto.
  destruct Hp as [Ho Hk]. split; auto.
Qed.

Lemma find_route_sound {H : Type} (routes : list (Route H)) m segs r ps :
  find_route routes m segs = Some (r, ps) ->
  In r routes /\ method r = m /\
  match_segments (segments (path r)) segs = Some ps.
Proof.
  induction routes as [|r0 routes IH]; simpl; [discriminate|].
  unfold match_route at 1.
  destruct (HttpMethod_eqb (method r0) m) eqn:Em.
  - destruct (match_segments (segments (path r0)) segs) as [ps0|] eqn:Es.
    + intros [= <- <-]. split; [now left|]. split; [|exact Es].
      destruct (method r0), m; simpl in Em; congruence.
    + intros Hf. destruct (IH Hf) as (Hin & Hm & Hs). auto.
  - intros Hf. destruct (IH Hf) as (Hin & Hm & Hs). auto.
Qed.

Lemma filenames_quiet (P : Op -> Prop) (l : list Value) {A} (k : list Value -> Prog A) :
  (forall names, all_calls P (k names)) ->
  all_calls P (bind (OfferController.filenames l) k).
Proof.
  intros Hk. apply all_calls_bind; [|exact Hk].
  induction l as [|f l IH]; simpl; [exact Logic.I|].
  unfold mbind, Prog_bind. apply all_calls_bind.
  - destruct f; simpl; exact Logic.I.
  - intros name. apply all_calls_bind; [exact IH|]. intros; exact Logic.I.
Qed.

Ltac unfold_handlers :=
  unfold OfferController.show, OfferController.index, OfferController.create,
    OfferController.delete, OfferController.update, OfferController.getComments,
    OfferController.findPremium, OfferController.findFavorite, OfferController.uploadImage,
    OfferControllerEarly.show, OfferControllerEarly.index, OfferControllerEarly.create,
    OfferControllerEarly.delete, OfferControllerEarly.update, OfferControllerEarly.getComments,
    OfferControllerEarly.findPremium, OfferControllerEarly.findFavorite.

Ltac calls_cases :=
  repeat first
    [ progress (prog_unfold;
                cbn [all_calls chain execute middlewares handler
                     OfferController.methods OfferControllerEarly.methods
                     with_params with_file with_files user params body
                     dict_get String.eqb Ascii.eqb Bool.eqb of_opt_string
                     op_offer_id mutates])
    | progress unfold_handlers
    | match goal with
      | |- forall _, _ => intro
      | |- _ /\ _ => split
      | |- context [if ?b then _ else _] => destruct b
      | |- context [match dict_get ?k ?d with _ => _ end] =>
          destruct (dict_get k d)
      | |- context [get_prop ?v _] => destruct v; cbn [get_prop]
      end
    | reflexivity | exact Logic.I ].

(** X2. In both revisions a GET request, through the middlewares of its
    route and its handler, never invokes [create], [updateById], [deleteById],
    [deleteByOfferId] or an upload, whatever the path and the services'
    answers. *)
Theorem get_requests_are_read_only `{Environment}
    (url : string) (req : Request) (p : Prog unit) :
  OfferController.handle Get url req = Some p \/
  OfferControllerEarly.handle Get url req = Some p ->
  forall (I : Services) (st : state I),
    Forall (fun o => mutates o = false) (calls (trace (run I p st))).
Proof.
  intros Hp I st. apply all_calls_run.
  destruct Hp as [Hp|Hp];
    unfold OfferController.handle, OfferControllerEarly.handle, serve, dispatch in Hp;
    destruct (find_route _ Get (segments url)) as [[r ps]|] eqn:Hr;
    try discriminate; injection Hp as <-;
    apply find_route_sound in Hr as (Hin & Hm & _);
    simpl in Hin;
    repeat (destruct Hin as [<-|Hin]; [try discriminate Hm|]); try destruct Hin.
  all: calls_cases.
Qed.

Lemma get_requests_are_read_only_witness :
  exists p,
    @OfferController.handle Sample.environment Get
      ("/" ++ Sample.offerId ++ "/comments") Sample.anonymous = Some p /\
    calls (trace (run MemoryStore.services p Sample.store))
      = [OfferExists (VStr Sample.offerId);
         CommentFindByOfferId (VStr Sample.offerId)] /\
    Forall (fun o => mutates o = false)
           (calls (trace (run MemoryStore.services p Sample.store))).
Proof.
  eexists. split; [reflexivity|]. split; [reflexivity|].
  apply (@get_requests_are_read_only Sample.environment
           ("/" ++ Sample.offerId ++ "/comments") Sample.anonymous).
  left. reflexivity.
Defined.


(** X3. In the later revision every route whose method is not GET lists
    [PrivateRouteMiddleware] first: a request without a user to any such route
    ends with the 401 error before any service operation, whatever its path,
    body and parameters. *)
Theorem mutations_require_user `{Environment}
    (m : HttpMethod) (url : string) (req : Request) (p : Prog unit) :
  m <> Get ->
  nullish (user req) = true ->
  OfferController.handle m url req = Some p ->
  forall (I : Services) (st : state I),
    run I p st =
      mkRun (Failed (HttpErr (mkHttpError StatusCodes.UNAUTHORIZED
                                "Unauthorized" "PrivateRouteMiddleware")))
            [] st.
Proof.
  intros Hm Hanon Hp I st.
  unfold OfferController.handle, serve, dispatch in Hp.
  destruct (find_route _ m (segments url)) as [[r ps]|] eqn:Hr;
    try discriminate; injection Hp as <-.
  apply find_route_sound in Hr as (Hin & Hmr & _).
  simpl in Hin.
  repeat (destruct Hin as [<-|Hin]; [simpl in Hmr; try congruence|]);
    try destruct Hin.
  all: chain_unfold; rewrite Hanon; reflexivity.
Qed.

Lemma mutations_require_user_witness :
  exists p,
    @OfferController.handle Sample.environment Delete ("/" ++ Sample.offerId)
      Sample.anonymous = Some p /\
    run MemoryStore.services p Sample.store =
      mkRun (Failed (HttpErr (mkHttpError 401 "Unauthorized"
                                "PrivateRouteMiddleware")))
            [] Sample.store.
Proof.
  eexists. split; [reflexivity|].
  apply (@mutations_require_user Sample.environment Delete
           ("/" ++ Sample.offerId) Sample.anonymous);
    [discriminate | reflexivity | reflexivity].
Defined.

Ltac params_of Hs :=
  match type of Hs with
  | match_segments ?pat _ = _ =>
      let pat' := eval vm_compute in pat in change pat with pat' in Hs
  end;
  cbn -[String.eqb lowercase] in Hs;
  repeat match type of Hs with
         | context [match ?x with nil => _ | cons _ _ => _ end] =>
             is_var x; destruct x; cbn -[String.eqb lowercase] in Hs
         | context [String.eqb ?a ?b] =>
             destruct (String.eqb a b) eqn:?; cbn -[String.eqb lowercase] in Hs
         end;
  try discriminate Hs; try (injection Hs as <-).

(** X4. In both revisions, when a request is dispatched to a route with an
    [:offerId] parameter, every operation that takes an offer id and is
    invoked while serving it (by the existence check or by the handler) is
    given that very id: a request for one offer never reads, updates or
    deletes another. *)
Theorem calls_address_the_requested_offer `{Environment}
    (m : HttpMethod) (url : string) (req : Request) (id : string) :
  (forall r ps p,
      dispatch OfferController.routes m url = Some (r, ps) ->
      dict_get "offerId" ps = Some id ->
      OfferController.handle m url req = Some p ->
      forall (I : Services) (st : state I),
        Forall (fun o => forall v, op_offer_id o = Some v -> v = VStr id)
               (calls (trace (run I p st)))) /\
  (forall r ps p,
      dispatch OfferControllerEarly.routes m url = Some (r, ps) ->
      dict_get "offerId" ps = Some id ->
      OfferControllerEarly.handle m url req = Some p ->
      forall (I : Services) (st : state I),
        Forall (fun o => forall v, op_offer_id o = Some v -> v = VStr id)
               (calls (trace (run I p st)))).
Proof.
  split; intros r ps p Hd Hid Hp I st; apply all_calls_run;
    unfold OfferController.handle, OfferControllerEarly.handle, serve in Hp;
    rewrite Hd in Hp; injection Hp as <-;
    unfold dispatch in Hd;
    set (segs := segments url) in *; clearbody segs;
    apply find_route_sound in Hd as (Hin & _ & Hs);
    simpl in Hin;
    repeat (destruct Hin as [<-|Hin]; [params_of Hs; cbn in Hid; try discriminate Hid|]);
    try destruct Hin.
  all: injection Hid as <-.
  all: calls_cases; try congruence.
  unfold OfferController.uploadImages. cbn [files with_files].
  destruct v; try exact Logic.I. unfold mbind, Prog_bind.
  apply filenames_quiet. intros names. calls_cases; congruence.
Qed.

Lemma calls_address_the_requested_offer_witness :
  exists p,
    @OfferController.handle Sample.environment Delete ("/" ++ Sample.offerId)
      Sample.authenticated = Some p /\
    calls (trace (run MemoryStore.services p Sample.store))
      = [OfferExists (VStr Sample.offerId);
         OfferDeleteById (VStr Sample.offerId);
         CommentDeleteByOfferId (VStr Sample.offerId)] /\
    Forall (fun o => forall v, op_offer_id o = Some v -> v = VStr Sample.offerId)
           (calls (trace (run MemoryStore.services p Sample.store))).
Proof.
  eexists. split; [reflexivity|]. split; [reflexivity|].
  destruct (@calls_address_the_requested_offer Sample.environment Delete
              ("/" ++ Sample.offerId) Sample.authenticated Sample.offerId)
    as [Hlater _].
  eapply Hlater; reflexivity.
Defined.

(** Evaluate the search for a route, leaving comparisons with an unknown
    segment to the equation [E]. *)
Ltac route_step E :=
  lazy -[String.eqb lowercase];
  first
    [ rewrite E
    | match goal with
      | |- context [String.eqb ?a ?b] =>
          let v := eval vm_compute in (String.eqb a b) in
          match v with
          | true => change (String.eqb a b) with true
          | false => change (String.eqb a b) with false
          end
      end ].

Lemma segments_premium city :
  is_segment city = true -> segments ("/premium/" ++ city) = ["premium"; city].
Proof.
  intros Hc.
  change ("/premium/" ++ city) with ("/" ++ "premium" ++ "/" ++ city).
  now apply segments_two.
Qed.

(** X5. In both revisions [/:offerId/comments] is registered before
    [/premium/:city].  For a city written without percent escapes (which the
    router hands on as written), GET /premium/<city> reaches [findPremium]
    with that city unless the city is ["comments"] in some letter case; then
    it reaches [getComments] with ["premium"] as the offer id. *)
Theorem premium_city_comments_is_shadowed `{Environment} (city : string) :
  is_segment city = true ->
  no_percent city = true ->
  (String.eqb (lowercase city) "comments" = false ->
   option_map (fun rp => (handler (fst rp), snd rp))
     (dispatch OfferController.routes Get ("/premium/" ++ city))
   = Some (OfferController.this_findPremium, [("city", city)]) /\
   option_map (fun rp => (handler (fst rp), snd rp))
     (dispatch OfferControllerEarly.routes Get ("/premium/" ++ city))
   = Some (OfferControllerEarly.this_findPremium, [("city", city)])) /\
  (String.eqb (lowercase city) "comments" = true ->
   option_map (fun rp => (handler (fst rp), snd rp))
     (dispatch OfferController.routes Get ("/premium/" ++ city))
   = Some (OfferController.this_getComments, [("offerId", "premium")]) /\
   option_map (fun rp => (handler (fst rp), snd rp))
     (dispatch OfferControllerEarly.routes Get ("/premium/" ++ city))
   = Some (OfferControllerEarly.this_getComments, [("offerId", "premium")])).
Proof.
  intros Hc _.
  split; intros Hcase; unfold dispatch; rewrite (segments_premium city Hc);
    rewrite String.eqb_sym in Hcase;
    change "comments" with (lowercase "comments") in Hcase;
    split; repeat (route_step Hcase); reflexivity.
Qed.

Lemma premium_city_comments_is_shadowed_witness :
  option_map (fun rp => (handler (fst rp), snd rp))
    (dispatch (@OfferController.routes Sample.environment) Get
       ("/premium/" ++ "Paris"))
  = Some (OfferController.this_findPremium, [("city", "Paris")])
  /\ option_map (fun rp => (handler (fst rp), snd rp))
       (dispatch (@OfferController.routes Sample.environment) Get
          ("/premium/" ++ "Comments"))
     = Some (OfferController.this_getComments, [("offerId", "premium")]).
Proof.
  split.
  - destruct (@premium_city_comments_is_shadowed Sample.environment "Paris"
                eq_refl eq_refl) as [Hcity _].
    apply Hcity. reflexivity.
  - destruct (@premium_city_comments_is_shadowed Sample.environment
                "Comments" eq_refl eq_refl) as [_ Hcomments].
    apply Hcomments. reflexivity.
Defined.


(** X6. In the early revision no request, of any method and path, is ever
    dispatched to [findFavorite], while every other handler is reached by
    some request; in the later revision every handler is reached by some
    request. *)
Theorem early_findFavorite_is_unreachable `{Environment} :
  (forall m url,
      option_map (fun rp => handler (fst rp))
        (dispatch OfferControllerEarly.routes m url)
      <> Some OfferControllerEarly.this_findFavorite) /\
  (forall h, h <> OfferControllerEarly.this_findFavorite ->
      exists m url,
        option_map (fun rp => handler (fst rp))
          (dispatch OfferControllerEarly.routes m url) = Some h) /\
  (forall h,
      exists m url,
        option_map (fun rp => handler (fst rp))
          (dispatch OfferController.routes m url) = Some h).
Proof.
  split; [|split].
  - intros m url. unfold dispatch. generalize (segments url). intros segs.
    destruct m; destruct segs as [|a [|b [|c segs]]];
      repeat (lazy -[String.eqb lowercase];
              match goal with
              | |- context [String.eqb ?x ?y] =>
                  let v := eval vm_compute in (String.eqb x y) in
                  match v with
                  | true => change (String.eqb x y) with true
                  | false => change (String.eqb x y) with false
                  | _ => destruct (String.eqb x y)
                  end
              end);
      lazy; discriminate.
  - intros h Hh. destruct h; try congruence.
    + exists Get, "/x". reflexivity.
    + exists Get, "/". reflexivity.
    + exists Post, "/". reflexivity.
    + exists Delete, "/x". reflexivity.
    + exists Patch, "/x". reflexivity.
    + exists Get, "/x/comments". reflexivity.
    + exists Get, "/premium/x". reflexivity.
  - intros h. destruct h.
    + exists Get, "/x". reflexivity.
    + exists Get, "/". reflexivity.
    + exists Post, "/". reflexivity.
    + exists Delete, "/x". reflexivity.
    + exists Patch, "/x". reflexivity.
    + exists Get, "/x/comments". reflexivity.
    + exists Get, "/premium/x". reflexivity.
    + exists Get, "/favorite". reflexivity.
    + exists Post, "/x/previewImage". reflexivity.
    + exists Post, "/x/offerImages". reflexivity.
Qed.

Lemma early_findFavorite_is_unreachable_witness :
  exists m url,
    option_map (fun rp => handler (fst rp))
      (dispatch OfferControllerEarly.routes m url)
    = Some OfferControllerEarly.this_getComments.
Proof.
  destruct (@early_findFavorite_is_unreachable Sample.environment)
    as (_ & Hothers & _).
  apply Hothers. discriminate.
Defined.

(** [filenames] of an array of objects is the array of their [filename]s. *)
Lemma filenames_objects (fs : list Obj) :
  OfferController.filenames (List.map VObj fs)
  = Ret (List.map (lookup_field "filename") fs).
Proof.
  induction fs as [|f fs IH]; [reflexivity|].
  simpl. rewrite IH. reflexivity.
Qed.

(** A [null] or [undefined] entry makes [filenames] throw. *)
Lemma filenames_nullish (l : list Value) :
  existsb nullish l = true ->
  exists e, OfferController.filenames l = Throw (TypeError e).
Proof.
  induction l as [|f l IH]; simpl; [discriminate|].
  unfold mbind, Prog_bind.
  destruct f; simpl; eauto; intros Hl; destruct (IH Hl) as [e ->]; simpl; eauto.
Qed.

(** X7. [uploadImages] sets [offerImages] to the [filename] of each uploaded
    file, in order (the empty list for an empty array), through one
    [updateById], and answers 201 with the mapped update; when [req.files] is
    not an array, or holds a [null] or [undefined] entry, it throws a
    [TypeError] before invoking any operation. *)
Theorem uploadImages_behaviour `{Environment}
    (I : Services) (st : state I) (req : Request) :
  let offerId := of_opt_string (dict_get "offerId" (params req)) in
  let r := run I (OfferController.uploadImages req) st in
  (forall fs : list Obj,
      files req = VArr (List.map VObj fs) ->
      let updateDto :=
        VObj [("offerImages", VArr (List.map (lookup_field "filename") fs))] in
      outcome r = Done tt /\
      trace r = [Called (OfferUpdateById offerId updateDto);
                 Sent StatusCodes.CREATED
                      (fillDTO UploadImagesResponse updateDto)]) /\
  (forall l : list Value,
      files req = VArr l -> existsb nullish l = true ->
      exists e, outcome r = Failed (TypeError e) /\ trace r = [] /\ final r = st) /\
  ((forall l, files req <> VArr l) ->
      exists e, outcome r = Failed (TypeError e) /\ trace r = [] /\ final r = st).
Proof.
  intros offerId r. subst r. unfold OfferController.uploadImages. fold offerId.
  split; [|split].
  - intros fs ->. rewrite filenames_objects. prog_unfold.
    answer_next. auto.
  - intros l -> Hl. destruct (filenames_nullish l Hl) as [e ->].
    prog_unfold. eauto.
  - intros Hl. destruct (files req); try (simpl; eauto; fail).
    now destruct (Hl items).
Qed.

Lemma uploadImages_behaviour_witness :
  let req :=
    with_files (VArr [VObj [("filename", VStr "a.png")];
                      VObj [("filename", VStr "b.png")]])
      (with_params [("offerId", Sample.offerId)] Sample.authenticated) in
  let updateDto :=
    VObj [("offerImages", VArr [VStr "a.png"; VStr "b.png"])] in
  trace (run MemoryStore.services
           (@OfferController.uploadImages Sample.environment req)
           Sample.store)
  = [Called (OfferUpdateById (VStr Sample.offerId) updateDto);
     Sent 201 updateDto]
  /\ exists e,
       outcome (run MemoryStore.services
                  (@OfferController.uploadImages Sample.environment
                     Sample.authenticated) Sample.store)
       = Failed (TypeError e).
Proof.
  intros req updateDto. split.
  - destruct (@uploadImages_behaviour Sample.environment MemoryStore.services
                Sample.store req) as (Hobjects & _ & _).
    destruct (Hobjects [[("filename", VStr "a.png")];
                        [("filename", VStr "b.png")]] eq_refl) as [_ Htrace].
    rewrite Htrace. reflexivity.
  - destruct (@uploadImages_behaviour Sample.environment MemoryStore.services
                Sample.store Sample.authenticated) as (_ & _ & Hother).
    destruct Hother as (e & He & _); [discriminate|].
    exists e. exact He.
Defined.

(** X8. The later [create] handler throws a [TypeError] before any operation
    when the request has no user; in both revisions, when the service's
    [create] answers [null] or [undefined], the handler throws a [TypeError]
    after that one operation and sends no response. *)
Theorem create_throws_on_missing_objects `{Environment}
    (I : Services) (st : state I) (req : Request) :
  (nullish (user req) = true ->
   exists e,
     run I (OfferController.create req) st = mkRun (Failed (TypeError e)) [] st) /\
  (forall u,
      user req = VObj u ->
      let dto := VObj (spread (body req) [("userId", lookup_field "id" u)]) in
      nullish (fst (answer I (OfferCreate dto) st)) = true ->
      exists e,
        run I (OfferController.create req) st =
          mkRun (Failed (TypeError e)) [Called (OfferCreate dto)]
                (snd (answer I (OfferCreate dto) st))) /\
  (nullish (fst (answer I (OfferCreate (VObj (body req))) st)) = true ->
   exists e,
     run I (OfferControllerEarly.create req) st =
       mkRun (Failed (TypeError e)) [Called (OfferCreate (VObj (body req)))]
             (snd (answer I (OfferCreate (VObj (body req))) st))).
Proof.
  split; [|split].
  - intros Hu. unfold OfferController.create.
    destruct (user req); try discriminate; prog_unfold; simpl; eauto.
  - intros u Hu dto Hnull. unfold OfferController.create. rewrite Hu.
    prog_unfold. cbn [get_prop bind run]. fold dto.
    destruct (answer I (OfferCreate dto) st) as [v st']. simpl in Hnull.
    destruct v; try discriminate; simpl; eauto.
  - intros Hnull. unfold OfferControllerEarly.create. prog_unfold.
    destruct (answer I (OfferCreate (VObj (body req))) st) as [v st'].
    simpl in Hnull. destruct v; try discriminate; simpl; eauto.
Qed.

Lemma create_throws_on_missing_objects_witness :
  exists e,
    run MemoryStore.services
      (@OfferController.create Sample.environment Sample.anonymous)
      Sample.store
    = mkRun (Failed (TypeError e)) [] Sample.store.
Proof.
  destruct (@create_throws_on_missing_objects Sample.environment
              MemoryStore.services Sample.store Sample.anonymous)
    as (Hnouser & _ & _).
  apply Hnouser. reflexivity.
Defined.

(** X9. In the early revision [update] answers 200 with the mapped offer
    exactly when [updateById] returned a truthy value and throws 404
    otherwise, and [getComments] throws 404 without invoking [findByOfferId]
    exactly when [exists] returned a falsy value. *)
Theorem early_handlers_guard_absence `{Environment}
    (I : Services) (st : state I) (req : Request) :
  let offerId := dict_get "offerId" (params req) in
  let id := of_opt_string offerId in
  let notFound :=
    HttpErr (mkHttpError StatusCodes.NOT_FOUND
               ("Offer with id " ++ interpolate offerId ++ " not found.")
               "OfferController") in
  (let found := answer I (OfferUpdateById id (VObj (body req))) st in
   run I (OfferControllerEarly.update req) st =
     if truthy (fst found)
     then mkRun (Done tt)
            [Called (OfferUpdateById id (VObj (body req)));
             Sent StatusCodes.OK (fillDTO OfferResponse (fst found))]
            (snd found)
     else mkRun (Failed notFound)
            [Called (OfferUpdateById id (VObj (body req)))] (snd found)) /\
  (let found := answer I (OfferExists id) st in
   let comments := answer I (CommentFindByOfferId id) (snd found) in
   run I (OfferControllerEarly.getComments req) st =
     if truthy (fst found)
     then mkRun (Done tt)
            [Called (OfferExists id); Called (CommentFindByOfferId id);
             Sent StatusCodes.OK (fillDTO CommentResponse (fst comments))]
            (snd comments)
     else mkRun (Failed notFound) [Called (OfferExists id)] (snd found)).
Proof.
  intros offerId id notFound. split.
  - unfold OfferControllerEarly.update. fold offerId. fold id. prog_unfold.
    destruct (answer I (OfferUpdateById id (VObj (body req))) st) as [v st'].
    simpl. destruct (truthy v); reflexivity.
  - unfold OfferControllerEarly.getComments. fold offerId. fold id. prog_unfold.
    destruct (answer I (OfferExists id) st) as [v st'].
    simpl. destruct (truthy v); simpl; [|reflexivity].
    destruct (answer I (CommentFindByOfferId id) st') as [c st'']. reflexivity.
Qed.

(** X10. GET /offers passes to [find] the [limit] of the query string in the
    later revision; in the early revision it passes [params.limit], which is
    [undefined] on that route whatever the query string says. *)
Theorem index_limit_source `{Environment}
    (I : Services) (st : state I) (req : Request) :
  (exists p,
      OfferControllerEarly.handle Get "/" req = Some p /\
      calls (trace (run I p st)) = [OfferFind VUndefined]) /\
  (exists p,
      OfferController.handle Get "/" req = Some p /\
      calls (trace (run I p st))
        = [OfferFind (of_opt_string (dict_get "limit" (query req)))]).
Proof.
  split; eexists; (split; [reflexivity|]); chain_unfold;
    cbn [OfferControllerEarly.methods query];
    unfold OfferControllerEarly.index, OfferController.index; prog_unfold;
    answer_next; reflexivity.
Qed.

(** ** The client actions *)

Import ClientActions.

Ltac thunk_unfold :=
  unfold request, push, save, drop, adapt, mbind, mret, Thunk_bind, Thunk_ret;
  cbn [thunk_bind try_catch perform].

Section ClientProofs.
Context `{Constants} `{Adapters}.
Variable srv : Server.

(** X11. [postOffer] pushes the page of the new offer on the history right
    after the offer is created and before the images are uploaded: when the
    preview upload is rejected the action is rejected although the history
    already moved, and the request for the other images is never sent; when
    both uploads were sent the action settles after four effects, fulfilled
    with the adapted offer or rejected with the error of the last upload. *)
Theorem postOffer_navigates_before_uploading
    (st st1 : server_state srv) (newOffer created : Obj)
    (payload preview : Value) :
  adaptCreateOfferToServer (VObj newOffer) = inr payload ->
  respond srv (ApiPost ApiRoute_Offers (Data payload) []) st
    = (inr (VObj created), st1) ->
  adaptPreviewImageToServer (lookup_field "previewImage" newOffer)
    = inr preview ->
  let id := to_string (lookup_field "id" created) in
  let create := ApiPost ApiRoute_Offers (Data payload) [] in
  let uploadPreview :=
    ApiPost (ApiRoute_Offers ++ "/" ++ id ++ "/previewImage") (Data preview)
            multipart_boundary in
  let navigation := Pushed (AppRoute_Property ++ "/" ++ id) in
  (forall error st2,
      respond srv uploadPreview st1 = (inl error, st2) ->
      perform srv (postOffer newOffer) st =
        mkResult (Rejected error)
                 [Requested create; navigation; Requested uploadPreview] st2)
  /\
  (forall answer st2 images answer' st3 offer,
      respond srv uploadPreview st1 = (inr answer, st2) ->
      adaptImagesToServer (lookup_field "images" newOffer) = inr images ->
      let uploadImages :=
        ApiPost (ApiRoute_Offers ++ "/" ++ id ++ "/offerImages") (Data images)
                multipart_boundary in
      respond srv uploadImages st2 = (answer', st3) ->
      adaptOfferToClient (VObj created) = inr offer ->
      perform srv (postOffer newOffer) st =
        mkResult (match answer' with
                  | inl error => Rejected error
                  | inr _ => Fulfilled offer
                  end)
                 [Requested create; navigation; Requested uploadPreview;
                  Requested uploadImages] st3).
Proof.
  intros Hpayload Hcreate Hpreview id create uploadPreview navigation.
  subst create uploadPreview navigation id. split.
  - intros error st2 Hup. unfold postOffer. thunk_unfold.
    rewrite Hpayload. thunk_unfold. rewrite Hcreate.
    cbn [thunk_bind perform read truthy]. rewrite Hpreview. thunk_unfold.
    rewrite Hup. reflexivity.
  - intros answer st2 images answer' st3 offer Hup Himages uploadImages Hup'
      Hoffer. subst uploadImages.
    unfold postOffer. thunk_unfold.
    rewrite Hpayload. thunk_unfold. rewrite Hcreate.
    cbn [thunk_bind perform read truthy]. rewrite Hpreview. thunk_unfold.
    rewrite Hup. cbn [thunk_bind perform read]. rewrite Himages.
    thunk_unfold. rewrite Hup'. destruct answer'; cbn [thunk_bind perform].
    + reflexivity.
    + rewrite Hoffer. reflexivity.
Qed.


(** X12. [editOffer] navigates last: whenever it pushes a route on the
    history, the three adapters succeeded and its effects are exactly the
    preview upload, the images upload, the PATCH of the offer and then that
    push, in this order. *)
Theorem editOffer_navigates_last
    (st : server_state srv) (offer : Obj) (route : string) :
  let r := perform srv (editOffer offer) st in
  let id := to_string (lookup_field "id" offer) in
  In (Pushed route) (effects r) ->
  exists preview images payload,
    adaptPreviewImageToServer (lookup_field "previewImage" offer)
      = inr preview /\
    adaptImagesToServer (lookup_field "images" offer) = inr images /\
    adaptEditOfferToServer (VObj offer) = inr payload /\
    effects r =
      [Requested (ApiPost (ApiRoute_Offers ++ "/" ++ id ++ "/previewImage")
                          (Data preview) multipart_boundary);
       Requested (ApiPost (ApiRoute_Offers ++ "/" ++ id ++ "/offerImages")
                          (Data images) multipart_boundary);
       Requested (ApiPatch (ApiRoute_Offers ++ "/" ++ id) (Data payload));
       Pushed route].
Proof.
  intros r id. subst r id. unfold editOffer. thunk_unfold.
  destruct (adaptPreviewImageToServer _) as [e|preview];
    [cbn; tauto|]. thunk_unfold.
  destruct (respond srv _ st) as [[e|a1] st1]; cbn [thunk_bind perform];
    [cbn; intuition discriminate|].
  destruct (adaptImagesToServer _) as [e|images];
    [cbn; intuition discriminate|]. thunk_unfold.
  destruct (respond srv _ st1) as [[e|a2] st2]; cbn [thunk_bind perform];
    [cbn; intuition discriminate|].
  destruct (adaptEditOfferToServer _) as [e|payload];
    [cbn; intuition discriminate|]. thunk_unfold.
  destruct (respond srv _ st2) as [[e|data] st3]; cbn [thunk_bind perform];
    [cbn; intuition discriminate|].
  destruct data; cbn [read thunk_bind perform];
    try (cbn; intuition discriminate);
    destruct (adaptOfferToClient _); cbn;
    intros [?|[?|[?|[[= <-]|[]]]]]; try discriminate;
    exists preview, images, payload; auto.
Qed.

(** X13. When [deleteOffer], [loginUser] or [registerUser] is rejected, all
    it did was send requests: no route was pushed on the history and no token
    was saved or dropped. *)
Theorem rejected_actions_leave_no_trace_but_requests
    (st : server_state srv) (error : Client.AxiosError) :
  (forall id,
      settled (perform srv (deleteOffer id) st) = Rejected error ->
      forallb is_request (effects (perform srv (deleteOffer id) st)) = true) /\
  (forall email password,
      settled (perform srv (loginUser email password) st) = Rejected error ->
      forallb is_request (effects (perform srv (loginUser email password) st))
        = true) /\
  (forall email password name avatar type,
      settled (perform srv (registerUser email password name avatar type) st)
        = Rejected error ->
      forallb is_request
        (effects (perform srv (registerUser email password name avatar type) st))
        = true).
Proof.
  split; [|split].
  - intros id. unfold deleteOffer. thunk_unfold.
    destruct (respond srv _ st) as [[e|a] st1]; cbn; [reflexivity|discriminate].
  - intros email password. unfold loginUser. thunk_unfold.
    destruct (respond srv _ st) as [[e|data] st1]; cbn [thunk_bind perform];
      [reflexivity|].
    destruct data; cbn; try reflexivity; discriminate.
  - intros email password name avatar type. unfold registerUser. thunk_unfold.
    destruct (adaptSignupToServer _) as [e|payload]; [reflexivity|].
    thunk_unfold.
    destruct (respond srv _ st) as [[e|data] st1]; cbn [thunk_bind perform];
      [reflexivity|].
    destruct (truthy avatar); cbn [thunk_bind perform]; [|cbn; discriminate].
    destruct data; cbn [read thunk_bind perform]; try reflexivity;
      destruct (respond srv _ st1) as [[e|a] st2]; cbn;
      try reflexivity; discriminate.
Qed.

(** X14. When their request is rejected, [fetchUserStatus], [postFavorite]
    and [deleteFavorite] are rejected with that same error after one
    request; exactly when the error's response has the NoAuth status,
    [fetchUserStatus] first drops the token and the two favorite actions first
    push the login route. *)
Theorem unauthorized_is_handled_then_rethrown
    (st st1 : server_state srv) (error : Client.AxiosError) :
  (respond srv (ApiGet ApiRoute_Login) st = (inl error, st1) ->
   perform srv fetchUserStatus st =
     mkResult (Rejected error)
       (Requested (ApiGet ApiRoute_Login)
          :: if has_status error HttpCode_NoAuth then [TokenDropped] else [])
       st1) /\
  (forall id,
      let call := ApiPost (ApiRoute_Favorite ++ "/" ++ to_string id) NoBody [] in
      respond srv call st = (inl error, st1) ->
      perform srv (postFavorite id) st =
        mkResult (Rejected error)
          (Requested call
             :: if has_status error HttpCode_NoAuth
                then [Pushed AppRoute_Login] else [])
          st1) /\
  (forall id,
      let call := ApiDelete (ApiRoute_Favorite ++ "/" ++ to_string id) in
      respond srv call st = (inl error, st1) ->
      perform srv (deleteFavorite id) st =
        mkResult (Rejected error)
          (Requested call
             :: if has_status error HttpCode_NoAuth
                then [Pushed AppRoute_Login] else [])
          st1).
Proof.
  split; [|split].
  - intros Hr. unfold fetchUserStatus. thunk_unfold. rewrite Hr.
    cbn [thunk_bind try_catch perform].
    destruct (has_status error HttpCode_NoAuth); reflexivity.
  - intros id call Hr. subst call. unfold postFavorite. thunk_unfold.
    rewrite Hr. cbn [thunk_bind try_catch perform].
    destruct (has_status error HttpCode_NoAuth); reflexivity.
  - intros id call Hr. subst call. unfold deleteFavorite. thunk_unfold.
    rewrite Hr. cbn [thunk_bind try_catch perform].
    destruct (has_status error HttpCode_NoAuth); reflexivity.
Qed.

(** X15. When the login request is resolved, [loginUser] saves the [token]
    field of the response data ([undefined] when the data has none), pushes
    the root route and is fulfilled with the e-mail it was given; when the
    data is [null] or [undefined] it is rejected with a [TypeError] and
    nothing is saved or pushed. *)
Theorem loginUser_saves_the_token_of_the_response
    (st st1 : server_state srv) (email password data : Value) :
  let call :=
    ApiPost ApiRoute_Login
            (Data (VObj [("email", email); ("password", password)])) [] in
  respond srv call st = (inr data, st1) ->
  perform srv (loginUser email password) st =
    match data with
    | VUndefined | VNull => mkResult (Rejected typeError) [Requested call] st1
    | _ =>
        mkResult (Fulfilled email)
          [Requested call; TokenSaved (opt_chain data "token");
           Pushed AppRoute_Root] st1
    end.
Proof.
  intros call Hr. subst call. unfold loginUser. thunk_unfold. rewrite Hr.
  destruct data; reflexivity.
Qed.

(** X16. After a successful registration request, [registerUser] without an
    avatar pushes the login route at once; with an avatar it first posts a
    form with that avatar to the avatar route of the new user's id, and pushes
    the login route only when that upload is resolved; with an avatar and
    [null] or [undefined] response data it is rejected with a [TypeError]. *)
Theorem registerUser_uploads_the_avatar_before_navigating
    (st st1 : server_state srv) (email password name avatar type : Value)
    (payload data : Value) :
  adaptSignupToServer
    (VObj [("email", email); ("password", password); ("name", name);
           ("type", type)]) = inr payload ->
  let register := ApiPost ApiRoute_Register (Data payload) [] in
  respond srv register st = (inr data, st1) ->
  (truthy avatar = false ->
   perform srv (registerUser email password name avatar type) st =
     mkResult (Fulfilled VUndefined)
       [Requested register; Pushed AppRoute_Login] st1) /\
  (truthy avatar = true -> nullish data = true ->
   perform srv (registerUser email password name avatar type) st =
     mkResult (Rejected typeError) [Requested register] st1) /\
  (truthy avatar = true -> nullish data = false ->
   let upload :=
     ApiPost (ApiRoute_Users ++ "/" ++ to_string (opt_chain data "id")
                ++ "/avatar")
             (FormData [("avatar", avatar)])
             [("Content-Type", "multipart/form-data")] in
   perform srv (registerUser email password name avatar type) st =
     match respond srv upload st1 with
     | (inl error, st2) =>
         mkResult (Rejected error) [Requested register; Requested upload] st2
     | (inr _, st2) =>
         mkResult (Fulfilled VUndefined)
           [Requested register; Requested upload; Pushed AppRoute_Login] st2
     end).
Proof.
  intros Hpayload register Hr. subst register.
  split; [|split].
  - intros Hav. unfold registerUser. thunk_unfold. rewrite Hpayload.
    thunk_unfold. rewrite Hr. rewrite Hav. reflexivity.
  - intros Hav Hnull. unfold registerUser. thunk_unfold. rewrite Hpayload.
    thunk_unfold. rewrite Hr. rewrite Hav.
    destruct data; try discriminate; reflexivity.
  - intros Hav Hnull upload. subst upload. unfold registerUser. thunk_unfold.
    rewrite Hpayload. thunk_unfold. rewrite Hr. rewrite Hav.
    destruct data; try discriminate; cbn [read opt_chain thunk_bind perform];
      destruct (respond srv _ st1) as [[e|a] st2]; reflexivity.
Qed.

(** X17. [fetchOffers], [fetchFavoriteOffers], [fetchPremiumOffers] and
    [fetchComments] each send exactly one GET request, to the route built
    from their argument, and [postComment] one POST of the adapted comment;
    they have no other effect, and are rejected with the error of the request
    or of the adapter, or fulfilled with the adapted data.  [logoutUser] only
    drops the token and sends no request. *)
Theorem fetchers_issue_one_request (st : server_state srv) :
  let outcome_of call adapter :=
    mkResult (match fst (respond srv call st) with
              | inl error => Rejected error
              | inr data =>
                  match adapter data with
                  | inl error => Rejected error
                  | inr adapted => Fulfilled adapted
                  end
              end)
             [Requested call] (snd (respond srv call st)) in
  perform srv fetchOffers st
    = outcome_of (ApiGet ApiRoute_Offers) adaptOffersToClient /\
  perform srv fetchFavoriteOffers st
    = outcome_of (ApiGet ApiRoute_Favorite) adaptOffersToClient /\
  (forall cityName,
      perform srv (fetchPremiumOffers cityName) st
      = outcome_of (ApiGet (ApiRoute_Premium ++ "/" ++ to_string cityName))
                   adaptOffersToClient) /\
  (forall id,
      perform srv (fetchComments id) st
      = outcome_of (ApiGet (ApiRoute_Offers ++ "/" ++ to_string id
                              ++ "/comments"))
                   adaptCommentsToClient) /\
  (forall id comment rating payload,
      adaptCreateCommentToServer
        (VObj [("id", id); ("comment", comment); ("rating", rating)])
        = inr payload ->
      perform srv (postComment id comment rating) st
      = outcome_of (ApiPost ApiRoute_Comments (Data payload) [])
                   adaptCommentToClient) /\
  perform srv logoutUser st = mkResult (Fulfilled VUndefined) [TokenDropped] st.
Proof.
  intros outcome_of. subst outcome_of. cbv beta.
  repeat split; intros;
    unfold fetchOffers, fetchFavoriteOffers, fetchPremiumOffers, fetchComments,
      postComment, logoutUser; thunk_unfold;
    try match goal with
        | Hp : adaptCreateCommentToServer _ = inr _ |- _ =>
            rewrite Hp; thunk_unfold
        end;
    try (destruct (respond srv _ st) as [[e|data] st1];
         cbn [thunk_bind perform fst snd]; [reflexivity|];
         match goal with
         | |- context [match ?f data with _ => _ end] => destruct (f data)
         end; reflexivity).
Qed.

End ClientProofs.

Lemma fetchers_issue_one_request_witness :
  perform scripted
    (@postComment ClientSample.constants ClientSample.adapters
       (VStr "o1") (VStr "Nice") (VNum 5))
    [inr (VObj [("text", VStr "Nice")])]
  = mkResult (Fulfilled (VObj [("text", VStr "Nice")]))
      [Requested (ApiPost "/comments"
                    (Data (VObj [("id", VStr "o1"); ("comment", VStr "Nice");
                                 ("rating", VNum 5)])) [])] [].
Proof.
  destruct (@fetchers_issue_one_request
              ClientSample.constants ClientSample.adapters scripted
              [inr (VObj [("text", VStr "Nice")])])
    as (_ & _ & _ & _ & Hcomment & _).
  rewrite (Hcomment (VStr "o1") (VStr "Nice") (VNum 5) _ eq_refl).
  reflexivity.
Defined.

Lemma postOffer_navigates_before_uploading_witness :
  perform scripted
    (@postOffer ClientSample.constants ClientSample.adapters
       ClientSample.newOffer)
    [inr ClientSample.created; inl ClientSample.unavailable]
  = mkResult (Rejected ClientSample.unavailable)
      [Requested (ApiPost "/offers" (Data (VObj ClientSample.newOffer)) []);
       Pushed "/property/o1";
       Requested (ApiPost "/offers/o1/previewImage" (Data (VStr "p.png"))
                          multipart_boundary)]
      [].
Proof.
  destruct (@postOffer_navigates_before_uploading
              ClientSample.constants ClientSample.adapters scripted
              [inr ClientSample.created; inl ClientSample.unavailable]
              [inl ClientSample.unavailable]
              ClientSample.newOffer
              [("id", VStr "o1"); ("title", VStr "Loft")]
              (VObj ClientSample.newOffer) (VStr "p.png")
              eq_refl eq_refl eq_refl) as [Hrejected _].
  apply (Hrejected ClientSample.unavailable []). reflexivity.
Defined.

Lemma editOffer_navigates_last_witness :
  let offer := ("id", VStr "o1") :: ClientSample.newOffer in
  effects (perform scripted
             (@editOffer ClientSample.constants ClientSample.adapters offer)
             [inr VNull; inr VNull; inr ClientSample.created])
  = [Requested (ApiPost "/offers/o1/previewImage" (Data (VStr "p.png"))
                        multipart_boundary);
     Requested (ApiPost "/offers/o1/offerImages"
                        (Data (VArr [VStr "a.png"; VStr "b.png"]))
                        multipart_boundary);
     Requested (ApiPatch "/offers/o1" (Data (VObj offer)));
     Pushed "/property/o1"].
Proof.
  intros offer.
  destruct (@editOffer_navigates_last
              ClientSample.constants ClientSample.adapters scripted
              [inr VNull; inr VNull; inr ClientSample.created]
              offer "/property/o1")
    as (preview & images & payload & Hp & Hi & Hy & Heffects).
  - vm_compute. tauto.
  - rewrite Heffects. injection Hp as <-. injection Hi as <-.
    injection Hy as <-. reflexivity.
Defined.

Lemma rejected_actions_leave_no_trace_but_requests_witness :
  effects (perform scripted
             (@loginUser ClientSample.constants (VStr "a@b.c") (VStr "pw"))
             [inl ClientSample.unauthorized])
  = [Requested (ApiPost "/login"
                  (Data (VObj [("email", VStr "a@b.c");
                               ("password", VStr "pw")])) [])]
  /\ forallb is_request
       (effects (perform scripted
                   (@loginUser ClientSample.constants (VStr "a@b.c")
                      (VStr "pw"))
                   [inl ClientSample.unauthorized])) = true.
Proof.
  split; [reflexivity|].
  destruct (@rejected_actions_leave_no_trace_but_requests
              ClientSample.constants ClientSample.adapters scripted
              [inl ClientSample.unauthorized] ClientSample.unauthorized)
    as (_ & Hlogin & _).
  apply Hlogin. reflexivity.
Defined.

Lemma unauthorized_is_handled_then_rethrown_witness :
  perform scripted
    (@fetchUserStatus ClientSample.constants ClientSample.adapters)
    [inl ClientSample.unauthorized]
  = mkResult (Rejected ClientSample.unauthorized)
      [Requested (ApiGet "/login"); TokenDropped] []
  /\ perform scripted
       (@postFavorite ClientSample.constants ClientSample.adapters
          (VStr "o1"))
       [inl ClientSample.unavailable]
     = mkResult (Rejected ClientSample.unavailable)
         [Requested (ApiPost "/favorite/o1" NoBody [])] [].
Proof.
  split.
  - destruct (@unauthorized_is_handled_then_rethrown
                ClientSample.constants ClientSample.adapters scripted
                [inl ClientSample.unauthorized] [] ClientSample.unauthorized)
      as (Hstatus & _ & _).
    apply Hstatus. reflexivity.
  - destruct (@unauthorized_is_handled_then_rethrown
                ClientSample.constants ClientSample.adapters scripted
                [inl ClientSample.unavailable] [] ClientSample.unavailable)
      as (_ & Hpost & _).
    apply (Hpost (VStr "o1")). reflexivity.
Defined.

Lemma loginUser_saves_the_token_of_the_response_witness :
  perform scripted
    (@loginUser ClientSample.constants (VStr "a@b.c") (VStr "pw"))
    [inr (VObj [("email", VStr "server@b.c"); ("token", VStr "t0k3n")])]
  = mkResult (Fulfilled (VStr "a@b.c"))
      [Requested (ApiPost "/login"
                    (Data (VObj [("email", VStr "a@b.c");
                                 ("password", VStr "pw")])) []);
       TokenSaved (VStr "t0k3n"); Pushed "/"] [].
Proof.
  apply (@loginUser_saves_the_token_of_the_response
           ClientSample.constants scripted
           [inr (VObj [("email", VStr "server@b.c");
                       ("token", VStr "t0k3n")])] []
           (VStr "a@b.c") (VStr "pw")
           (VObj [("email", VStr "server@b.c"); ("token", VStr "t0k3n")])).
  reflexivity.
Defined.

Lemma registerUser_uploads_the_avatar_before_navigating_witness :
  let signup :=
    VObj [("email", VStr "a@b.c"); ("password", VStr "pw");
          ("name", VStr "Ann"); ("type", VStr "pro")] in
  perform scripted
    (@registerUser ClientSample.constants ClientSample.adapters
       (VStr "a@b.c") (VStr "pw") (VStr "Ann") (VStr "face.png") (VStr "pro"))
    [inr (VObj [("id", VStr "u7")]); inl ClientSample.unavailable]
  = mkResult (Rejected ClientSample.unavailable)
      [Requested (ApiPost "/register" (Data signup) []);
       Requested (ApiPost "/users/u7/avatar"
                    (FormData [("avatar", VStr "face.png")])
                    [("Content-Type", "multipart/form-data")])] [].
Proof.
  intros signup.
  destruct (@registerUser_uploads_the_avatar_before_navigating
              ClientSample.constants ClientSample.adapters scripted
              [inr (VObj [("id", VStr "u7")]); inl ClientSample.unavailable]
              [inl ClientSample.unavailable]
              (VStr "a@b.c") (VStr "pw") (VStr "Ann") (VStr "face.png")
              (VStr "pro") signup (VObj [("id", VStr "u7")])
              eq_refl eq_refl) as (_ & _ & Havatar).
  rewrite (Havatar eq_refl eq_refl). reflexivity.
Defined.
